(** * stamper: timestamp overlay planner and command builder

    A shallow embedding of [stamper.py]: the escaping helper, the
    per-file planner [process] that turns probe metadata and user options
    into an [ffmpeg] argument list, the sequential batch driver
    [handle_cli] and the validation done by the GUI's [start] callback.

    Python values are modelled as the interpreter has them:
    - [str] as [string] (code points below 256),
    - [int] as [Z],
    - [float] as IEEE-754 binary64, through the Standard Library's
      [spec_float] operations at precision 53 and maximal exponent 1024,
    - exceptions and [print] through a small trace-and-error monad. *)

From Stdlib Require Import ZArith QArith Qround Bool List Ascii String Lia.
From Stdlib Require Import SpecFloat DecimalString.
Import ListNotations.

Local Open Scope string_scope.
Local Open Scope Z_scope.

(** ** Python string primitives *)

Module PyStr.

(** [value.replace(c, by)] for a one-character pattern [c]. *)
Fixpoint replace_char (c : ascii) (by_ : string) (s : string) : string :=
  match s with
  | EmptyString => EmptyString
  | String a rest =>
      if Ascii.eqb a c then by_ ++ replace_char c by_ rest
      else String a (replace_char c by_ rest)
  end.

(** [c in s] for a one-character [c]. *)
Fixpoint contains (c : ascii) (s : string) : bool :=
  match s with
  | EmptyString => false
  | String a rest => Ascii.eqb a c || contains c rest
  end.

(** [sep.join(parts)]. *)
Fixpoint join (sep : string) (parts : list string) : string :=
  match parts with
  | [] => EmptyString
  | [p] => p
  | p :: rest => p ++ sep ++ join sep rest
  end.

(** [s.split(c)[-1]]: the text after the last occurrence of [c]. *)
Fixpoint last_segment (c : ascii) (s : string) : string :=
  match s with
  | EmptyString => EmptyString
  | String a rest =>
      if contains c rest then last_segment c rest
      else if Ascii.eqb a c then rest
      else s
  end.

(** [str(n)] for an [int]. *)
Definition of_Z (n : Z) : string := NilZero.string_of_int (Z.to_int n).

Definition backslash : ascii := "\"%char.
Definition dquote : ascii := Ascii.ascii_of_nat 34.
Definition colon : ascii := ":"%char.
Definition newline : ascii := Ascii.ascii_of_nat 10.

(** The one-character string holding a double quote. *)
Definition dquote_s : string := String dquote EmptyString.

End PyStr.

(** ** [escape] (stamper.py, line 48) *)

(** [value.replace(':', '\\:').replace('"', '\\"').replace('\\', '\\\\')]:
    three passes, in this order. *)
Definition escape (value : string) : string :=
  PyStr.replace_char PyStr.backslash "\\"
    (PyStr.replace_char PyStr.dquote (String PyStr.backslash PyStr.dquote_s)
       (PyStr.replace_char PyStr.colon "\:" value)).

(** ** The reader of the escaped text

    The text that [escape] produces is read by the encoder's filter-graph
    parser, an external program.  Its documentation (ffmpeg-filters,
    "Notes on filtergraph escaping") describes two levels of de-escaping on
    the way to an option value: one when the filter-graph description is
    split into filters, one when the option list of a filter is split into
    [key=value] pairs.  The model keeps what concerns the characters that
    [escape] treats, the backslash rule; quoting with single quotes and the
    separators of the two levels are left out. *)

(** One level: a backslash makes the character that follows it literal and
    is itself dropped; every other character stands for itself.  A final
    lone backslash is kept. *)
Fixpoint unescape (s : string) : string :=
  match s with
  | EmptyString => EmptyString
  | String a rest =>
      if Ascii.eqb a PyStr.backslash then
        match rest with
        | EmptyString => s
        | String b rest' => String b (unescape rest')
        end
      else String a (unescape rest)
  end.

(** What the consuming parser makes of an escaped key or value: both
    levels, one after the other. *)
Definition filter_unescape (s : string) : string := unescape (unescape s).


(** ** Python numbers *)

(** Exceptions that can leave the modelled functions. *)
Inductive exn : Type :=
| CalledProcessError   (* ffprobe exited with a nonzero status *)
| StopIteration        (* next() on an exhausted iterator *)
| KeyError             (* missing dictionary key *)
| ValueError
| OverflowError
| OSError
| ZeroDivisionError
| TemplateError        (* re.error or IndexError: bad replacement template *)
| RuntimeError         (* FfmpegProgress: the encoder failed *)
| SystemExit (code : Z).

(** The result of evaluating an expression: a value or a raised exception. *)
Inductive result (A : Type) : Type :=
| Ok (a : A)
| Raise (e : exn).
Arguments Ok {A} a.
Arguments Raise {A} e.

Definition rbind {A B} (r : result A) (k : A -> result B) : result B :=
  match r with
  | Ok a => k a
  | Raise e => Raise e
  end.

Module PyFloat.

(** binary64 *)
Definition prec : Z := 53.
Definition emax : Z := 1024.

Definition float : Type := spec_float.

Definition mul : float -> float -> float := SFmul prec emax.
Definition div : float -> float -> float := SFdiv prec emax.
Definition add : float -> float -> float := SFadd prec emax.
Definition sub : float -> float -> float := SFsub prec emax.
Definition ltb : float -> float -> bool := SFltb.

(** Nearest binary64 to an integer, ties to even (infinite on overflow). *)
Definition of_Z (n : Z) : float := binary_normalize prec emax n 0 false.

(** The literal [1.7]: [0x1.b333333333333p+0]. *)
Definition lit_1_7 : float := S754_finite false 7656119366529843 (-52).
(** The literal [0.5]. *)
Definition lit_0_5 : float := S754_finite false 4503599627370496 (-53).

Definition is_zero (x : float) : bool :=
  match x with
  | S754_zero _ => true
  | _ => false
  end.

Definition sign (x : float) : bool :=
  match x with
  | S754_zero s | S754_infinity s | S754_finite s _ _ => s
  | S754_nan => false
  end.

(** Implicit conversion of an [int] operand ([PyLong_AsDouble]). *)
Definition of_int (n : Z) : result float :=
  match of_Z n with
  | S754_infinity _ => Raise OverflowError
  | f => Ok f
  end.

(** [x / y] on floats. *)
Definition truediv (x y : float) : result float :=
  if is_zero y then Raise ZeroDivisionError
  else Ok (div x y).

(** C's [fmod]: exact, with the sign of [x]. *)
Definition fmod (x y : float) : float :=
  match x, y with
  | S754_nan, _ | _, S754_nan => S754_nan
  | S754_infinity _, _ => S754_nan
  | _, S754_zero _ => S754_nan
  | S754_zero _, _ => x
  | S754_finite _ _ _, S754_infinity _ => x
  | S754_finite sx mx ex, S754_finite _ my ey =>
      let e := Z.min ex ey in
      let r := (Zpos mx * 2 ^ (ex - e)) mod (Zpos my * 2 ^ (ey - e)) in
      binary_normalize prec emax (cond_Zopp sx r) e sx
  end.

(** C's [floor]. *)
Definition floor (x : float) : float :=
  match x with
  | S754_finite s m e =>
      if 0 <=? e then x
      else binary_normalize prec emax (cond_Zopp s (Zpos m) / 2 ^ (- e)) 0 s
  | _ => x
  end.

(** [x // y] on floats, as CPython's [float_floor_div] computes it. *)
Definition floordiv (vx wx : float) : result float :=
  if is_zero wx then Raise ZeroDivisionError
  else
    let md := fmod vx wx in
    let q := div (sub vx md) wx in
    let q :=
      if is_zero md then q
      else if xorb (ltb wx (S754_zero false)) (ltb md (S754_zero false))
           then sub q (of_Z 1)
           else q in
    if is_zero q then Ok (S754_zero (xorb (sign vx) (sign wx)))
    else
      let fd := floor q in
      if ltb lit_0_5 (sub q fd) then Ok (add fd (of_Z 1)) else Ok fd.

(** [int(x)]: truncation toward zero. *)
Definition to_int (x : float) : result Z :=
  match x with
  | S754_nan => Raise ValueError
  | S754_infinity _ => Raise OverflowError
  | S754_zero _ => Ok 0
  | S754_finite s m e =>
      Ok (cond_Zopp s (if 0 <=? e then Zpos m * 2 ^ e
                       else Zpos m / 2 ^ (- e)))
  end.

(** *** [repr(x)]: the shortest decimal string that reads back as [x] *)

Definition pow2 (e : Z) : Q :=
  if 0 <=? e then inject_Z (2 ^ e) else 1 # Z.to_pos (2 ^ (- e)).
Definition pow10 (k : Z) : Q :=
  if 0 <=? k then inject_Z (10 ^ k) else 1 # Z.to_pos (10 ^ (- k)).

Definition Qltb (a b : Q) : bool := negb (Qle_bool b a).

(** The decimals that round to [m * 2^e] lie between the midpoints with
    its two neighbours; the bounds belong to the interval when [m] is
    even. *)
Definition rounds_to (m : positive) (e : Z) (y : Q) : bool :=
  let lo :=
    if (Pos.eqb m 4503599627370496 && (-1074 <? e))%bool
    then (inject_Z (4 * Zpos m - 1) * pow2 (e - 2))%Q
    else (inject_Z (2 * Zpos m - 1) * pow2 (e - 1))%Q in
  let hi := (inject_Z (2 * Zpos m + 1) * pow2 (e - 1))%Q in
  if Z.even (Zpos m) then (Qle_bool lo y && Qle_bool y hi)%bool
  else (Qltb lo y && Qltb y hi)%bool.

(** Least [k] from [k0] upwards with [x < 10^k]. *)
Fixpoint decimal_exponent (fuel : nat) (x : Q) (k0 : Z) : Z :=
  match fuel with
  | O => k0
  | S fuel' =>
      if Qltb x (pow10 k0) then k0 else decimal_exponent fuel' x (k0 + 1)
  end.

(** Shortest digits: for [n = 1, 2, ...] try the two [n]-digit decimals
    around [x], and of two that read back as [x] take the nearer one (the
    even one on a tie); returns the digits as an integer and the position
    of the decimal point. *)
Fixpoint shortest (fuel : nat) (m : positive) (e : Z) (x : Q) (k n : Z)
  : Z * Z :=
  let u := pow10 (k - n) in
  let low := Qfloor (x / u) in
  let ylo := (inject_Z low * u)%Q in
  let yhi := (inject_Z (low + 1) * u)%Q in
  let pick_hi := if low + 1 =? 10 ^ n then (1, k + 1) else (low + 1, k) in
  match fuel with
  | O => (low, k)
  | S fuel' =>
      match rounds_to m e ylo, rounds_to m e yhi with
      | true, true =>
          match Qcompare (x - ylo) (yhi - x) with
          | Lt => (low, k)
          | Gt => pick_hi
          | Eq => if Z.even low then (low, k) else pick_hi
          end
      | true, false => (low, k)
      | false, true => pick_hi
      | false, false => shortest fuel' m e x k (n + 1)
      end
  end.

Fixpoint zeros (n : nat) : string :=
  match n with
  | O => EmptyString
  | S n' => String "0" (zeros n')
  end.

Fixpoint strip_zeros_rev (s : list ascii) : list ascii :=
  match s with
  | "0"%char :: rest => strip_zeros_rev rest
  | _ => s
  end.

Definition strip_trailing_zeros (s : string) : string :=
  string_of_list_ascii
    (rev (strip_zeros_rev (rev (list_ascii_of_string s)))).

(** Python's layout of the digits (format code ['r']). *)
Definition layout (digits : string) (decpt : Z) : string :=
  let n := Z.of_nat (String.length digits) in
  if ((-4 <? decpt) && (decpt <=? 16))%bool then
    if decpt <=? 0 then "0." ++ zeros (Z.to_nat (- decpt)) ++ digits
    else if n <=? decpt then digits ++ zeros (Z.to_nat (decpt - n)) ++ ".0"
    else substring 0 (Z.to_nat decpt) digits ++ "."
         ++ substring (Z.to_nat decpt) (Z.to_nat (n - decpt)) digits
  else
    let ex := decpt - 1 in
    let exs := PyStr.of_Z (Z.abs ex) in
    substring 0 1 digits
    ++ (if 1 <? n then "." ++ substring 1 (Z.to_nat (n - 1)) digits
        else EmptyString)
    ++ "e" ++ (if ex <? 0 then "-" else "+")
    ++ (if Z.abs ex <? 10 then "0" ++ exs else exs).

Definition repr (x : float) : string :=
  match x with
  | S754_nan => "nan"
  | S754_infinity s => if s then "-inf" else "inf"
  | S754_zero s => if s then "-0.0" else "0.0"
  | S754_finite s m e =>
      let xq := (inject_Z (Zpos m) * pow2 e)%Q in
      let b := Zpos (digits2_pos m) + e in
      let k := decimal_exponent 8 xq ((b - 1) * 30103 / 100000 - 1) in
      let '(d, decpt) := shortest 17 m e xq k 1 in
      (if s then "-" else EmptyString)
      ++ layout (strip_trailing_zeros (PyStr.of_Z d)) decpt
  end.

End PyFloat.


(** ** The regular-expression substitution of [process]

    [re.sub(r'\.(\w+)$', fr'{suffix}.\1', filename)]: the pattern is fixed,
    the replacement template is built from the suffix. *)

Module Re.

Local Open Scope list_scope.

Definition code (c : ascii) : N := N_of_ascii c.
Definition in_range (lo hi : N) (c : ascii) : bool :=
  ((lo <=? code c) && (code c <=? hi))%N.

Definition is_digit (c : ascii) : bool := in_range 48 57 c.
Definition is_octdigit (c : ascii) : bool := in_range 48 55 c.
Definition is_ascii_letter (c : ascii) : bool :=
  in_range 65 90 c || in_range 97 122 c.

(** [\w] of a [str] pattern: alphanumeric or underscore; for the code
    points 128..255 the alphanumeric ones of Unicode. *)
Definition is_word (c : ascii) : bool :=
  is_digit c || is_ascii_letter c || (code c =? 95)%N
  || (code c =? 170)%N || in_range 178 179 c || (code c =? 181)%N
  || in_range 185 186 c || in_range 188 190 c
  || in_range 192 214 c || in_range 216 246 c || in_range 248 255 c.

(** Longest prefix of word characters, and what follows it. *)
Fixpoint span_word (s : string) : string * string :=
  match s with
  | EmptyString => (EmptyString, EmptyString)
  | String c rest =>
      if is_word c then
        let '(w, t) := span_word rest in (String c w, t)
      else (EmptyString, s)
  end.

(** [(\w+)$] at the text after a dot: the group, and the text left after
    the match.  [$] holds at the end of the string and just before a
    newline that ends it. *)
Definition match_ext (rest : string) : option (string * string) :=
  let '(w, t) := span_word rest in
  match w with
  | EmptyString => None
  | _ =>
      if (String.eqb t EmptyString
          || String.eqb t (String PyStr.newline EmptyString))%bool
      then Some (w, t) else None
  end.

(** Replace the leftmost match (there is at most one); [repl] maps the
    captured group to the replacement text. *)
Fixpoint sub_ext (repl : string -> string) (s : string) : string :=
  match s with
  | EmptyString => EmptyString
  | String c rest =>
      if Ascii.eqb c "."%char then
        match match_ext rest with
        | Some (w, t) => (repl w ++ t)%string
        | None => String c (sub_ext repl rest)
        end
      else String c (sub_ext repl rest)
  end.

(** *** The replacement template ([re._parser.parse_template]) *)

Inductive piece : Type :=
| Lit (c : ascii)
| Group (n : N).

(** Where the template scanner stands between two characters. *)
Inductive tstate : Type :=
| TNormal
| TEsc                    (* after a backslash *)
| TG                      (* after \g *)
| TGName (name : string)  (* inside \g<...  *)
| TOct0                   (* after \0 *)
| TOct1 (d : N)           (* after \0d *)
| TDig1 (c : N)           (* after \c, c a nonzero digit *)
| TDig2 (c d : N)         (* after \cd *)
| TError.

Definition chr (n : N) : ascii := ascii_of_N n.
Definition digit (c : ascii) : N := (code c - 48)%N.

(** A reference to group [index]; the pattern has group 0 and group 1. *)
Definition addgroup (index : N) (out : list piece) : tstate * list piece :=
  if (index <=? 1)%N then (TNormal, out ++ [Group index]) else (TError, out).

Definition escapes (c : ascii) : option ascii :=
  if Ascii.eqb c "a" then Some (chr 7)
  else if Ascii.eqb c "b" then Some (chr 8)
  else if Ascii.eqb c "f" then Some (chr 12)
  else if Ascii.eqb c "n" then Some (chr 10)
  else if Ascii.eqb c "r" then Some (chr 13)
  else if Ascii.eqb c "t" then Some (chr 9)
  else if Ascii.eqb c "v" then Some (chr 11)
  else if Ascii.eqb c PyStr.backslash then Some PyStr.backslash
  else None.

Fixpoint all_digits (s : string) : bool :=
  match s with
  | EmptyString => true
  | String c rest => is_digit c && all_digits rest
  end.

Fixpoint decimal_value (acc : N) (s : string) : N :=
  match s with
  | EmptyString => acc
  | String c rest => decimal_value (10 * acc + digit c)%N rest
  end.

(** [\g<name>]: the pattern has no named group, so only a decimal group
    number is accepted (Python 3.12; earlier versions also take what
    [int()] parses, with a deprecation warning). *)
Definition group_by_name (name : string) (out : list piece)
  : tstate * list piece :=
  match name with
  | EmptyString => (TError, out)
  | _ => if all_digits name then addgroup (decimal_value 0 name) out
         else (TError, out)
  end.

Definition normal (c : ascii) (out : list piece) : tstate * list piece :=
  if Ascii.eqb c PyStr.backslash then (TEsc, out)
  else (TNormal, out ++ [Lit c]).

(** Close the token that is still open when no character continues it. *)
Definition flush (st : tstate) (out : list piece) : tstate * list piece :=
  match st with
  | TNormal => (TNormal, out)
  | TOct0 => (TNormal, out ++ [Lit (chr 0)])
  | TOct1 d => (TNormal, out ++ [Lit (chr d)])
  | TDig1 c => addgroup c out
  | TDig2 c d => addgroup (10 * c + d) out
  | TEsc | TG | TGName _ | TError => (TError, out)
  end.

Definition step (s : tstate * list piece) (c : ascii)
  : tstate * list piece :=
  let '(st, out) := s in
  match st with
  | TNormal => normal c out
  | TEsc =>
      if Ascii.eqb c "g" then (TG, out)
      else if Ascii.eqb c "0" then (TOct0, out)
      else if is_digit c then (TDig1 (digit c), out)
      else match escapes c with
           | Some e => (TNormal, out ++ [Lit e])
           | None =>
               if is_ascii_letter c then (TError, out)
               else (TNormal, out ++ [Lit PyStr.backslash; Lit c])
           end
  | TG => if Ascii.eqb c "<" then (TGName EmptyString, out) else (TError, out)
  | TGName name =>
      if Ascii.eqb c ">" then group_by_name name out
      else (TGName (name ++ String c EmptyString)%string, out)
  | TOct0 =>
      if is_octdigit c then (TOct1 (digit c), out)
      else normal c (out ++ [Lit (chr 0)])
  | TOct1 d =>
      if is_octdigit c
      then (TNormal, out ++ [Lit (chr (N.land (8 * d + digit c) 255))])
      else normal c (out ++ [Lit (chr d)])
  | TDig1 c1 =>
      if is_digit c then (TDig2 c1 (digit c), out)
      else match addgroup c1 out with
           | (TNormal, out') => normal c out'
           | other => other
           end
  | TDig2 c1 d =>
      if ((c1 <=? 7)%N && (d <=? 7)%N && is_octdigit c)%bool then
        let v := (64 * c1 + 8 * d + digit c)%N in
        if (v <=? 255)%N then (TNormal, out ++ [Lit (chr v)])
        else (TError, out)
      else match addgroup (10 * c1 + d) out with
           | (TNormal, out') => normal c out'
           | other => other
           end
  | TError => (TError, out)
  end.

Fixpoint run (t : string) (s : tstate * list piece) : tstate * list piece :=
  match t with
  | EmptyString => s
  | String c rest => run rest (step s c)
  end.

Definition parse_template (t : string) : result (list piece) :=
  let '(st, out) := run t (TNormal, []) in
  match flush st out with
  | (TNormal, out') => Ok out'
  | _ => Raise TemplateError
  end.

(** The text a parsed template stands for, at a match of [\.(\w+)$] whose
    group is [ext]. *)
Fixpoint expand (ext : string) (ps : list piece) : string :=
  match ps with
  | [] => EmptyString
  | Lit c :: rest => String c (expand ext rest)
  | Group n :: rest =>
      ((if (n =? 0)%N then String "."%char ext else ext)
       ++ expand ext rest)%string
  end.

(** [re.sub(r'\.(\w+)$', template, s)].  The template is compiled before
    the search, so a bad template raises even when nothing matches. *)
Definition sub (template s : string) : result string :=
  rbind (parse_template template)
        (fun ps => Ok (sub_ext (fun ext => expand ext ps) s)).

End Re.

(** ** Effects: printed lines, spawned commands, exceptions *)

Inductive event : Type :=
| Print (line : string)          (* print(...) *)
| Run (cmd : list string).       (* the encoder started on an argument list *)

(** A computation: what it did, then its value or the exception that left
    it. *)
Definition M (A : Type) : Type := (list event * result A)%type.

Definition ret {A} (a : A) : M A := ([], Ok a).
Definition lift {A} (r : result A) : M A := ([], r).
Definition print (line : string) : M unit := ([Print line], Ok tt).

Definition bind {A B} (m : M A) (k : A -> M B) : M B :=
  match m with
  | (t, Ok a) => let '(t', r) := k a in ((t ++ t')%list, r)
  | (t, Raise e) => (t, Raise e)
  end.

Declare Scope py_scope.
Delimit Scope py_scope with py.
Notation "x <- m ;; k" := (bind m (fun x => k))
  (at level 61, m at next level, right associativity) : py_scope.
Notation "m ;; k" := (bind m (fun _ => k))
  (at level 61, right associativity) : py_scope.
Notation "'let?' x := r 'in' k" := (rbind r (fun x => k))
  (at level 61, x name, r at next level, right associativity) : py_scope.
Local Open Scope py_scope.

(** [d[key]] on a dictionary entry that may be missing. *)
Definition getitem {A} (entry : option A) : result A :=
  match entry with
  | Some a => Ok a
  | None => Raise KeyError
  end.

(** ** The world outside the program *)

Inductive platform : Type := Win32 | Linux | Darwin | OtherPlatform.

(** One entry of ffprobe's [streams] array, with the keys the program
    reads.  [creation_time] stands for [stream['tags']['creation_time']]. *)
Record Stream : Type := {
  codec_type : option string;
  codec_name : option string;
  width : option Z;
  height : option Z;
  creation_time : option string
}.

Record Env : Type := {
  sys_platform : platform;
  (** whether the ffmpeg and ffprobe binaries can be started *)
  ffmpeg_found : bool;
  (** [probe(filename)['streams']]; [Raise CalledProcessError] when ffprobe
      exits with a nonzero status *)
  probe : string -> result (list Stream);
  (** [datetime.strptime(s, fmt).timestamp()] *)
  strptime_timestamp : string -> result PyFloat.float;
  (** [os.path.getctime(filename)] *)
  getctime : string -> result PyFloat.float;
  (** the exception, if any, with which the operating system refuses to
      start a command (an [OSError]: argument list too long, no memory) *)
  spawn_error : list string -> option exn;
  (** whether the encoder, run on these arguments, exits with status zero *)
  encode_ok : list string -> bool
}.

(** ** [process] (stamper.py, lines 51-113) *)

(** The keyword arguments of [process]. *)
Record Options : Type := {
  suffix : string;
  size : PyFloat.float;
  margin : PyFloat.float;
  position_x : string;
  position_y : string;
  font : string;
  color : string;
  border : string;
  opacity : PyFloat.float;
  gpu : bool;
  quality : Z
}.

(** The values that end up in the command: [int], [float] or [str]. *)
Inductive value : Type :=
| VInt (n : Z)
| VFloat (x : PyFloat.float)
| VStr (s : string).

(** [str(v)], which is also what an f-string field [{v}] inserts. *)
Definition str (v : value) : string :=
  match v with
  | VInt n => PyStr.of_Z n
  | VFloat x => PyFloat.repr x
  | VStr s => s
  end.

(** [next(filter(lambda s: s['codec_type'] == 'video', streams))] *)
Fixpoint first_video (streams : list Stream) : result Stream :=
  match streams with
  | [] => Raise StopIteration
  | s :: rest =>
      let? t := getitem (codec_type s) in
      if String.eqb t "video" then Ok s else first_video rest
  end.

(** Lines 59-63: the stream's creation time, or the file's when the tag is
    missing. *)
Definition creation_time_of (env : Env) (filename : string) (stream : Stream)
  : M PyFloat.float :=
  match creation_time stream with
  | Some s => lift (strptime_timestamp env s)
  | None =>
      print ("Warning: no creation time for " ++ filename
             ++ ", using file creation time") ;;
      lift (getctime env filename)
  end.

(** Line 67: [size * min(width, height) / 300] *)
Definition scaled_size (size : PyFloat.float) (width height : Z)
  : result PyFloat.float :=
  let? m := PyFloat.of_int (Z.min width height) in
  PyFloat.truediv (PyFloat.mul size m) (PyFloat.of_Z 300).

(** Lines 69 and 75: [margin * scaled_size / size] *)
Definition offset (margin scaled size : PyFloat.float)
  : result PyFloat.float :=
  PyFloat.truediv (PyFloat.mul margin scaled) size.

(** Lines 70-73 *)
Definition x_expr (position_x : string) (x : PyFloat.float) : value :=
  if String.eqb position_x "center" then VStr "(W-text_w)/2"
  else if String.eqb position_x "right"
       then VStr ("W-text_w-" ++ str (VFloat x))
       else VFloat x.

(** Lines 76-79 *)
Definition y_expr (position_y : string) (y : PyFloat.float) : value :=
  if String.eqb position_y "center" then VStr "(H-text_h)/2"
  else if String.eqb position_y "bottom"
       then VStr ("H-text_h-" ++ str (VFloat y))
       else VFloat y.

(** [min(a, 51)]: the second argument wins only when it is smaller. *)
Definition min_51 (a : value) : value :=
  match a with
  | VInt n => if 51 <? n then VInt 51 else a
  | VFloat x => if PyFloat.ltb (PyFloat.of_Z 51) x then VInt 51 else a
  | VStr _ => a
  end.

(** Line 82: [min((101 - quality) // (2 if gpu else 1.7), 51)] *)
Definition qp (gpu : bool) (quality : Z) : result value :=
  if gpu then Ok (min_51 (VInt ((101 - quality) / 2)))
  else
    let? n := PyFloat.of_int (101 - quality) in
    let? d := PyFloat.floordiv n PyFloat.lit_1_7 in
    Ok (min_51 (VFloat d)).

(** Line 83: [re.sub(r'\.(\w+)$', fr'{suffix}.\1', filename)] *)
Definition output (filename suffix : string) : result string :=
  Re.sub (suffix ++ ".\1") filename.

(** Lines 85-89 *)
Definition input_flags (gpu : bool) (codec : string) : list string :=
  if gpu then ["-hwaccel"; "cuda"; "-c:v"; codec ++ "_cuvid"] else [].

(** Lines 91-93 *)
Definition output_flags (gpu : bool) (codec : string) : list string :=
  if gpu then ["-c:v"; codec ++ "_nvenc"] else [].

(** Lines 95-106: the [drawtext] dictionary, in insertion order (its keys
    are pairwise distinct). *)
Definition drawtext (o : Options) (alpha scaled borderw : PyFloat.float)
  (x y : value) (timestamp : Z) : list (string * value) :=
  [ ("alpha", VFloat alpha);
    (if PyStr.contains "." (font o) then "fontfile" else "font",
      VStr (PyStr.replace_char PyStr.backslash "/" (font o)));
    ("fontcolor", VStr (color o));
    ("fontsize", VFloat scaled);
    ("bordercolor", VStr (border o));
    ("borderw", VFloat borderw);
    ("x", x);
    ("y", y);
    ("text", VStr ("%{pts:localtime:" ++ PyStr.of_Z timestamp ++ "}")) ].

(** Line 112: one [key=value] item of the filter description ... *)
Definition item (kv : string * value) : string :=
  escape (fst kv) ++ "=" ++ escape (str (snd kv)).

(** ... and the value of the [-vf] argument. *)
Definition vf (d : list (string * value)) : string :=
  "drawtext=" ++ PyStr.dquote_s ++ PyStr.join ":" (map item d).

(** Lines 108-113: the returned list. *)
Definition argument_list (filename : string) (gpu : bool) (codec : string)
  (qp : value) (d : list (string * value)) (output : string) : list string :=
  (["ffmpeg"; "-y"; "-hide_banner"]
   ++ input_flags gpu codec
   ++ ["-i"; filename;
       "-c:a"; "copy";
       "-qp"; str qp;
       "-vf"; vf d]
   ++ output_flags gpu codec
   ++ [output])%list.

(** Lines 65-113, once the video stream and its creation time are known. *)
Definition command (filename : string) (o : Options) (stream : Stream)
  (ctime : PyFloat.float) : result (list string) :=
  let? width := getitem (width stream) in
  let? height := getitem (height stream) in
  let? scaled := scaled_size (size o) width height in
  let? x := offset (margin o) scaled (size o) in
  let x := x_expr (position_x o) x in
  let? y := offset (margin o) scaled (size o) in
  let y := y_expr (position_y o) y in
  let? codec := getitem (codec_name stream) in
  let? qp := qp (gpu o) (quality o) in
  let? output := output filename (suffix o) in
  let? alpha := PyFloat.truediv (opacity o) (PyFloat.of_Z 100) in
  let? borderw := PyFloat.truediv scaled (PyFloat.of_Z 16) in
  let? timestamp := PyFloat.to_int ctime in
  Ok (argument_list filename (gpu o) codec qp
        (drawtext o alpha scaled borderw x y timestamp) output).

(** [process]: [None] after a failed probe, otherwise the argument list.
    Only [CalledProcessError] is caught (line 55); every other exception
    leaves the function. *)
Definition process (env : Env) (filename : string) (o : Options)
  : M (option (list string)) :=
  match probe env filename with
  | Raise CalledProcessError =>
      print ("Error: invalid input file " ++ filename) ;;
      ret None
  | Raise e => lift (Raise e)
  | Ok streams =>
      stream <- lift (first_video streams) ;;
      ctime <- creation_time_of env filename stream ;;
      cmd <- lift (command filename o stream ctime) ;;
      ret (Some cmd)
  end.

(** ** [handle_cli] (stamper.py, lines 115-131) *)

(** Lines 25-43 *)
Definition ensure_ffmpeg (env : Env) : M bool :=
  if ffmpeg_found env then ret true
  else
    print "Error: ffmpeg not found" ;;
    print (match sys_platform env with
           | Win32 => "Download ffmpeg from https://ffmpeg.org/download.html"
           | Linux => "Run `sudo apt install ffmpeg`"
           | Darwin => "Run `brew install ffmpeg`"
           | OtherPlatform =>
               "Install ffmpeg from https://ffmpeg.org/download.html"
           end) ;;
    ret false.

(** An argument that holds the character of code 0. *)
Definition has_nul (arg : string) : bool :=
  PyStr.contains (ascii_of_nat 0) arg.

(** Starting a child process, as [subprocess.run] (line 126) and the
    progress wrapper (line 130) do through [subprocess.Popen]: an argument
    with an embedded NUL is refused with [ValueError] before anything is
    started, and the operating system may refuse as well; otherwise the
    command runs. *)
Definition spawn (env : Env) (cmd : list string) : M unit :=
  if existsb has_nul cmd then lift (Raise ValueError)
  else
    match spawn_error env cmd with
    | Some e => lift (Raise e)
    | None => ([Run cmd], Ok tt)
    end.

(** Lines 124-131: run one command, printing first in verbose mode.
    [subprocess.run] does not look at the exit status; without [verbose]
    the progress wrapper raises [RuntimeError] when the encoder fails. *)
Definition run_cli (env : Env) (verbose : bool) (filename : string)
  (cmd : list string) : M unit :=
  if verbose then
    print ("Processing " ++ filename) ;;
    spawn env cmd
  else
    spawn env cmd ;;
    lift (if encode_ok env cmd then Ok tt else Raise RuntimeError).

(** Lines 122-131: the loop over the input files. *)
Fixpoint cli_loop (env : Env) (verbose : bool) (o : Options)
  (input_files : list string) : M unit :=
  match input_files with
  | [] => ret tt
  | filename :: rest =>
      cmd <- process env filename o ;;
      match cmd with
      | Some (a :: args) => run_cli env verbose filename (a :: args)
      | _ => ret tt
      end ;;
      cli_loop env verbose o rest
  end.

Definition handle_cli (env : Env) (input_files : list string)
  (verbose : bool) (o : Options) : M unit :=
  found <- ensure_ffmpeg env ;;
  if found then cli_loop env verbose o input_files
  else lift (Raise (SystemExit 1)).

(** ** The GUI's [start] callback (stamper.py, lines 207-245) *)

(** [prefix_re = r'[a-zA-Z0-9_-]'] (line 18): the pattern takes one
    character, of this class. *)
Definition prefix_re (c : ascii) : bool :=
  Re.in_range 97 122 c || Re.in_range 65 90 c || Re.in_range 48 57 c
  || Ascii.eqb c "_" || Ascii.eqb c "-".

(** [re.match(prefix_re, s)]: the pattern has to match at the start of [s];
    nothing is required of what follows. *)
Definition re_match_prefix (s : string) : bool :=
  match s with
  | EmptyString => false
  | String c _ => prefix_re c
  end.

(** What the user does in the dialogs, and the state the callback reads. *)
Record Gui : Type := {
  suffix_textbox : string;        (* suffix_textbox.value *)
  selected_files : list string;   (* result of askopenfilenames *)
  confirmed : bool;               (* answer to the yes/no dialog *)
  running : bool                  (* ff is not None *)
}.

Inductive gui_event : Type :=
| ErrorBox (title message : string)
| WarnBox (title message : string)
| InfoBox (title message : string)
| AskFiles
| YesNo (title message : string)
| ShowProgress
| ThreadStart (videos : list string)   (* Thread(target=start_work, ...) *)
| Raised (e : exn).                    (* the exception that left the callback *)

(** Lines 45-46 *)
Definition file_name (file : string) : string := PyStr.last_segment "/" file.

(** Lines 169-174: only [CalledProcessError] is caught; any other
    exception of the probe leaves [probable]. *)
Definition probable (env : Env) (file : string) : result bool :=
  match probe env file with
  | Ok _ => Ok true
  | Raise CalledProcessError => Ok false
  | Raise e => Raise e
  end.

Definition nl : string := String PyStr.newline EmptyString.

(** Lines 221-224: the selected files, in order, go to [videos] or to
    [errors]; an exception of [probable] ends the loop. *)
Fixpoint split_files (env : Env) (files : list string)
  : result (list string * list string) :=
  match files with
  | [] => Ok ([], [])
  | file :: rest =>
      let? ok := probable env file in
      let? ve := split_files env rest in
      Ok (if ok then (file :: fst ve, snd ve) else (fst ve, file :: snd ve))
  end.

Definition start (env : Env) (g : Gui) : list gui_event :=
  if String.eqb (suffix_textbox g) EmptyString then
    [ErrorBox "Error" "Suffix is empty"]
  else if negb (re_match_prefix (suffix_textbox g)) then
    [ErrorBox "Error" "Suffix is not alphanumeric"]
  else
    AskFiles ::
    match selected_files g with
    | [] => [WarnBox "Warning" "No files selected"]
    | files =>
        match split_files env files with
        | Raise e => [Raised e]
        | Ok (videos, errors) =>
            let names := PyStr.join nl (map file_name videos) in
            (match errors with
             | [] => []
             | _ => [WarnBox "Warning" ("Invalid files:" ++ nl ++ names)]
             end ++
             match videos with
             | [] => [WarnBox "Warning" "No valid files selected"]
             | _ =>
                 let n := List.length videos in
                 YesNo "Confirmation"
                   ("Process " ++ PyStr.of_Z (Z.of_nat n) ++ " file"
                    ++ (if Nat.eqb n 1 then EmptyString else "s") ++ "?"
                    ++ nl ++ names)
                 :: (if confirmed g then
                       ShowProgress ::
                       (if running g
                        then [ErrorBox "Error"
                                "Operation already in progress"]
                        else [ThreadStart videos])
                     else [InfoBox "Info" "Operation cancelled"])
             end)%list
        end
    end.

(** ** A sample world, for evaluating the model *)

Module Sample.

Definition video_stream : Stream := {|
  codec_type := Some "video";
  codec_name := Some "h264";
  width := Some 1920;
  height := Some 1080;
  creation_time := Some "2023-11-14T22:13:20.000000Z"
|}.

Definition audio_stream : Stream := {|
  codec_type := Some "audio";
  codec_name := Some "aac";
  width := None;
  height := None;
  creation_time := None
|}.

(** [broken.mp4] cannot be read, [song.mp3] holds audio only, every other
    file is a 1920x1080 H.264 video with an audio track. *)
Definition env : Env := {|
  sys_platform := Linux;
  ffmpeg_found := true;
  probe := fun f =>
    if String.eqb f "broken.mp4" then Raise CalledProcessError
    else if String.eqb f "song.mp3" then Ok [audio_stream]
    else Ok [audio_stream; video_stream];
  strptime_timestamp := fun _ => Ok (PyFloat.of_Z 1700000000);
  getctime := fun _ => Ok (PyFloat.of_Z 1600000000);
  spawn_error := fun _ => None;
  encode_ok := fun _ => true
|}.

(** The defaults of the command line (lines 416-426). *)
Definition defaults : Options := {|
  suffix := "_ts";
  size := PyFloat.of_Z 20;
  margin := PyFloat.of_Z 10;
  position_x := "left";
  position_y := "bottom";
  font := "Arial";
  color := "white";
  border := "black";
  opacity := PyFloat.of_Z 100;
  gpu := false;
  quality := 72
|}.

(** The same options with a text size of [0.0]. *)
Definition zero_size : Options := {|
  suffix := "_ts";
  size := S754_zero false;
  margin := PyFloat.of_Z 10;
  position_x := "left";
  position_y := "bottom";
  font := "Arial";
  color := "white";
  border := "black";
  opacity := PyFloat.of_Z 100;
  gpu := false;
  quality := 72
|}.

(** What [process] returns for [video.mp4] with the defaults. *)
Definition default_command : list string :=
  ["ffmpeg"; "-y"; "-hide_banner"; "-i"; "video.mp4"; "-c:a"; "copy";
   "-qp"; "17.0"; "-vf";
   "drawtext=" ++ PyStr.dquote_s
   ++ "alpha=1.0:font=Arial:fontcolor=white:fontsize=72.0"
   ++ ":bordercolor=black:borderw=4.5:x=36.0:y=H-text_h-36.0"
   ++ ":text=%{pts\\:localtime\\:1700000000}";
   "video_ts.mp4"].

End Sample.


(** ** Notions used to state the properties *)

(** What [escape] does to one character. *)
Definition escape_char (a : ascii) : string :=
  if Ascii.eqb a PyStr.colon then "\\:"
  else if Ascii.eqb a PyStr.dquote
       then String PyStr.backslash (String PyStr.backslash PyStr.dquote_s)
       else if Ascii.eqb a PyStr.backslash then "\\"
            else String a EmptyString.

(** The specification's formula for the quantization parameter (section
    4.2, step 5): [clamp(round((101 - q) / (gpu ? 2.0 : 1.7)), 0, 51)], with
    the division taken exactly and halves rounded to the even neighbour. *)
Definition round_half_even (x : Q) : Z :=
  let f := Qfloor x in
  match Qcompare (x - inject_Z f) (1 # 2) with
  | Lt => f
  | Gt => f + 1
  | Eq => if Z.even f then f else f + 1
  end.

Definition spec_qp (gpu : bool) (q : Z) : Z :=
  Z.max 0
    (Z.min (round_half_even (inject_Z (101 - q) / (if gpu then 2 else 17 # 10)))
       51).

(** The divisor of line 82 as a rational: [2], or the exact value of the
    binary64 literal [1.7]. *)
Definition divisor (gpu : bool) : Q :=
  if gpu then 2 else 7656119366529843 # 4503599627370496.

(** [min(floor((101 - q) / divisor), 51)] *)
Definition floor_qp (gpu : bool) (q : Z) : Z :=
  Z.min (Qfloor (inject_Z (101 - q) / divisor gpu)) 51.

(** The integer a Python number is equal to, if any. *)
Definition int_value (v : value) : option Z :=
  match v with
  | VInt n => Some n
  | VFloat x =>
      match PyFloat.to_int x with
      | Ok n => if SFeqb x (PyFloat.of_Z n) then Some n else None
      | Raise _ => None
      end
  | VStr _ => None
  end.

(** A run of word characters, as [\w+] matches it. *)
Fixpoint all_word (s : string) : bool :=
  match s with
  | EmptyString => true
  | String c rest => Re.is_word c && all_word rest
  end.

(** A path with an extension: it ends in a dot followed by a non-empty run
    of word characters. *)
Definition has_extension (path : string) : Prop :=
  exists stem ext,
    path = stem ++ "." ++ ext /\ ext <> EmptyString /\ all_word ext = true.

(** A template text without escapes, as literal pieces. *)
Fixpoint lits (s : string) : list Re.piece :=
  match s with
  | EmptyString => []
  | String c rest => Re.Lit c :: lits rest
  end.

(** The values [process] derives for one file (the specification's
    overlay plan). *)
Record Plan : Type := {
  p_scaled : PyFloat.float;    (* scaled_size *)
  p_offset : PyFloat.float;    (* margin * scaled_size / size *)
  p_codec : string;
  p_qp : value;
  p_output : string;
  p_alpha : PyFloat.float;
  p_borderw : PyFloat.float;
  p_timestamp : Z
}.

(** [p] holds the values computed for [filename] from the options, the
    video stream and the creation time. *)
Definition plans (filename : string) (o : Options) (stream : Stream)
  (ctime : PyFloat.float) (p : Plan) : Prop :=
  exists w h,
    width stream = Some w
    /\ height stream = Some h
    /\ scaled_size (size o) w h = Ok (p_scaled p)
    /\ offset (margin o) (p_scaled p) (size o) = Ok (p_offset p)
    /\ codec_name stream = Some (p_codec p)
    /\ qp (gpu o) (quality o) = Ok (p_qp p)
    /\ output filename (suffix o) = Ok (p_output p)
    /\ PyFloat.truediv (opacity o) (PyFloat.of_Z 100) = Ok (p_alpha p)
    /\ PyFloat.truediv (p_scaled p) (PyFloat.of_Z 16) = Ok (p_borderw p)
    /\ PyFloat.to_int ctime = Ok (p_timestamp p).

(** The [drawtext] dictionary of a plan. *)
Definition plan_drawtext (o : Options) (p : Plan) : list (string * value) :=
  drawtext o (p_alpha p) (p_scaled p) (p_borderw p)
    (x_expr (position_x o) (p_offset p))
    (y_expr (position_y o) (p_offset p))
    (p_timestamp p).

(** The argument list of a plan. *)
Definition plan_arguments (filename : string) (o : Options) (p : Plan)
  : list string :=
  argument_list filename (gpu o) (p_codec p) (p_qp p) (plan_drawtext o p)
    (p_output p).

(** The specification's rule for a suffix: non-empty, every character a
    letter, a digit, an underscore or a hyphen ([[A-Za-z0-9_-]+]). *)
Fixpoint all_prefix_re (s : string) : bool :=
  match s with
  | EmptyString => true
  | String c rest => prefix_re c && all_prefix_re rest
  end.

Definition valid_suffix (s : string) : bool :=
  negb (String.eqb s EmptyString) && all_prefix_re s.

(** The callback went past its checks and started the worker thread. *)
Definition starts_thread (evs : list gui_event) : bool :=
  existsb (fun e => match e with ThreadStart _ => true | _ => false end) evs.

(** Every character of [s] satisfies [P]. *)
Fixpoint all_chars (P : ascii -> bool) (s : string) : bool :=
  match s with
  | EmptyString => true
  | String c rest => P c && all_chars P rest
  end.

(** The characters [str] uses for numbers: digits, sign, point, exponent
    mark, and the letters of [inf] and [nan]. *)
Definition numeric_char (c : ascii) : bool :=
  Re.is_digit c || PyStr.contains c "-+.einfa".

(** ** Further parts of the program *)

(** [format(n, '02')]: at least two characters, padded with a zero. *)
Definition pad2 (n : Z) : string :=
  if ((0 <=? n) && (n <? 10))%bool then "0" ++ PyStr.of_Z n else PyStr.of_Z n.

(** [td_str] (lines 176-177), on the [seconds] attribute of the duration:
    [f'{s//3600:02}:{s//60%60:02}:{s%60:02}']. *)
Definition td_str (seconds : Z) : string :=
  pad2 (seconds / 3600) ++ ":" ++ pad2 (seconds / 60 mod 60) ++ ":"
  ++ pad2 (seconds mod 60).

(** [update_example] (lines 286-287): the preview shown beside the suffix
    box, [f"video.mp4 => video{suffix_textbox.value}.mp4"]. *)
Definition update_example (suffix_value : string) : string :=
  "video.mp4 => video" ++ suffix_value ++ ".mp4".

(** [validate_float] (lines 292-302): the handler it installs on a text box,
    as a step on the remembered value [prev] and the text of the box.
    [float_of_str] stands for the built-in [float(text)], [None] when it
    raises [ValueError]. *)
Section ValidateFloat.

Variable float_of_str : string -> option PyFloat.float.

(** [(min is None or min <= value) and (max is None or value <= max)] *)
Definition within (min max : option PyFloat.float) (x : PyFloat.float) : bool :=
  match min with
  | None => true
  | Some lo => SFleb lo x
  end
  && match max with
     | None => true
     | Some hi => SFleb x hi
     end.

Definition validate_float (min max : option PyFloat.float)
  (st : value * string) : value * string :=
  let '(prev, text) := st in
  match float_of_str text with
  | Some x => if within min max x then (VFloat x, text) else (prev, text)
  | None => (prev, str prev)
  end.

(** The remembered value after the handler has run on each of a series of
    texts left in the box. *)
Definition validate_edits (min max : option PyFloat.float) (prev : value)
  (edits : list string) : value :=
  fold_left (fun p text => fst (validate_float min max (p, text))) edits prev.

End ValidateFloat.

(** A stand-in for [float(text)] that reads plain digit strings only. *)
Definition digits_float (text : string) : option PyFloat.float :=
  match text with
  | EmptyString => None
  | _ => if Re.all_digits text
         then Some (PyFloat.of_Z (Z.of_N (Re.decimal_value 0 text)))
         else None
  end.

(** Number of occurrences of a character. *)
Fixpoint count_char (c : ascii) (s : string) : nat :=
  match s with
  | EmptyString => O
  | String a rest => ((if Ascii.eqb a c then 1 else 0) + count_char c rest)%nat
  end.

(** The commands started in a trace, in order. *)
Fixpoint runs (t : list event) : list (list string) :=
  match t with
  | [] => []
  | Run cmd :: rest => cmd :: runs rest
  | Print _ :: rest => runs rest
  end.

(** The lines printed in a trace, in order. *)
Fixpoint printed (t : list event) : list string :=
  match t with
  | [] => []
  | Print line :: rest => line :: printed rest
  | Run _ :: rest => printed rest
  end.

(** The commands [process] returns for a list of files, in order. *)
Definition planned (env : Env) (o : Options) (files : list string)
  : list (list string) :=
  flat_map (fun f => match snd (process env f o) with
                     | Ok (Some (a :: args)) => [a :: args]
                     | _ => []
                     end) files.

(** A second sample world: [notag.mp4] is a video without a creation-time
    tag, [nowidth.mp4] a video stream without dimensions, the probe of
    [denied.mp4] cannot be started, the encoder fails on [fail.mp4] and
    cannot be started on [toolong.mp4]. *)
Module World.

Definition untagged : Stream := {|
  codec_type := Some "video";
  codec_name := Some "hevc";
  width := Some 640;
  height := Some 480;
  creation_time := None
|}.

Definition no_dimensions : Stream := {|
  codec_type := Some "video";
  codec_name := Some "hevc";
  width := None;
  height := None;
  creation_time := None
|}.

Definition unknown_stream : Stream := {|
  codec_type := None;
  codec_name := None;
  width := None;
  height := None;
  creation_time := None
|}.

Definition env : Env := {|
  sys_platform := Win32;
  ffmpeg_found := true;
  probe := fun f =>
    if String.eqb f "broken.mp4" then Raise CalledProcessError
    else if String.eqb f "denied.mp4" then Raise OSError
    else if String.eqb f "nowidth.mp4" then Ok [no_dimensions]
    else if String.eqb f "unknown.mkv" then Ok [unknown_stream; untagged]
    else Ok [Sample.audio_stream; untagged];
  strptime_timestamp := fun _ => Raise ValueError;
  getctime := fun _ => Ok (S754_finite false 7036874417766400 (-22));
  spawn_error := fun cmd =>
    if existsb (String.eqb "toolong.mp4") cmd then Some OSError else None;
  encode_ok := fun cmd => negb (existsb (String.eqb "fail.mp4") cmd)
|}.

(** The same world without the encoder binaries. *)
Definition no_ffmpeg : Env := {|
  sys_platform := Win32;
  ffmpeg_found := false;
  probe := probe env;
  strptime_timestamp := strptime_timestamp env;
  getctime := getctime env;
  spawn_error := spawn_error env;
  encode_ok := encode_ok env
|}.

End World.

(** The options with another suffix, and with another font colour. *)
Definition with_suffix (o : Options) (s : string) : Options := {|
  suffix := s;
  size := size o;
  margin := margin o;
  position_x := position_x o;
  position_y := position_y o;
  font := font o;
  color := color o;
  border := border o;
  opacity := opacity o;
  gpu := gpu o;
  quality := quality o
|}.



(** The probe of [file] returns. *)
Definition probe_ok (env : Env) (file : string) : bool :=
  match probe env file with
  | Ok _ => true
  | Raise _ => false
  end.

(** The probe of [file] returns or fails with [CalledProcessError]: the
    two outcomes [probable] turns into an answer. *)
Definition probe_answers (env : Env) (file : string) : bool :=
  match probe env file with
  | Ok _ | Raise CalledProcessError => true
  | Raise _ => false
  end.

(** ** Facts about strings *)

Section StringFacts.

Lemma append_nil_r (s : string) : s ++ EmptyString = s.
Proof. induction s as [|a s IH]; simpl; [reflexivity | now rewrite IH]. Qed.

Lemma append_assoc (s t u : string) : (s ++ t) ++ u = s ++ t ++ u.
Proof. induction s as [|a s IH]; simpl; [reflexivity | now rewrite IH]. Qed.

Lemma length_append (s t : string) :
  String.length (s ++ t) = (String.length s + String.length t)%nat.
Proof. induction s as [|a s IH]; simpl; [reflexivity | now rewrite IH]. Qed.

Lemma contains_append (c : ascii) (s t : string) :
  PyStr.contains c (s ++ t) = PyStr.contains c s || PyStr.contains c t.
Proof.
  induction s as [|a s IH]; simpl; [reflexivity|].
  now rewrite IH, orb_assoc.
Qed.

Lemma replace_char_append (c : ascii) (b s t : string) :
  PyStr.replace_char c b (s ++ t)
  = PyStr.replace_char c b s ++ PyStr.replace_char c b t.
Proof.
  induction s as [|a s IH]; simpl; [reflexivity|].
  destruct (Ascii.eqb a c); simpl; rewrite IH;
    [now rewrite append_assoc | reflexivity].
Qed.

Lemma replace_char_absent (c : ascii) (b s : string) :
  PyStr.contains c s = false -> PyStr.replace_char c b s = s.
Proof.
  induction s as [|a s IH]; simpl; [reflexivity|].
  intros H. apply orb_false_iff in H as [Ha Hs].
  now rewrite Ha, IH.
Qed.

End StringFacts.

(** ** Facts about [escape] *)

Section EscapeFacts.

Lemma escape_cons (a : ascii) (s : string) :
  escape (String a s) = escape_char a ++ escape s.
Proof.
  unfold escape, escape_char. simpl PyStr.replace_char at 3.
  destruct (Ascii.eqb_spec a PyStr.colon) as [->|Hc]; [reflexivity|].
  simpl PyStr.replace_char at 2.
  destruct (Ascii.eqb_spec a PyStr.dquote) as [->|Hq]; [reflexivity|].
  simpl PyStr.replace_char at 1.
  destruct (Ascii.eqb_spec a PyStr.backslash) as [->|Hb]; reflexivity.
Qed.

Lemma escape_append (s t : string) : escape (s ++ t) = escape s ++ escape t.
Proof. unfold escape. now rewrite !replace_char_append. Qed.

(** After the first level the backslashes of [escape] are halved: each
    colon and each double quote still carries one, each backslash of the
    text stands alone. *)
Lemma unescape_escape (s : string) :
  unescape (escape s)
  = PyStr.replace_char PyStr.dquote (String PyStr.backslash PyStr.dquote_s)
      (PyStr.replace_char PyStr.colon "\:" s).
Proof.
  induction s as [|a s IH]; [reflexivity|].
  rewrite escape_cons. unfold escape_char.
  simpl PyStr.replace_char at 2.
  destruct (Ascii.eqb_spec a PyStr.colon) as [->|Hc].
  { simpl. now rewrite IH. }
  simpl PyStr.replace_char at 1.
  destruct (Ascii.eqb_spec a PyStr.dquote) as [->|Hq].
  { simpl. now rewrite IH. }
  destruct (Ascii.eqb_spec a PyStr.backslash) as [->|Hb].
  { simpl. now rewrite IH. }
  simpl. apply Ascii.eqb_neq in Hb. now rewrite Hb, IH.
Qed.

(** The second level takes those backslashes away, when the text has none
    of its own. *)
Lemma unescape_marked (s : string) :
  PyStr.contains PyStr.backslash s = false ->
  unescape
    (PyStr.replace_char PyStr.dquote (String PyStr.backslash PyStr.dquote_s)
       (PyStr.replace_char PyStr.colon "\:" s)) = s.
Proof.
  induction s as [|a s IH]; [reflexivity|].
  cbn [PyStr.contains]. intros H. apply orb_false_iff in H as [Ha Hs].
  simpl PyStr.replace_char at 2.
  destruct (Ascii.eqb_spec a PyStr.colon) as [->|Hc].
  { simpl. now rewrite IH. }
  simpl PyStr.replace_char at 1.
  destruct (Ascii.eqb_spec a PyStr.dquote) as [->|Hq].
  { simpl. now rewrite IH. }
  cbn [unescape]. now rewrite Ha, IH.
Qed.

(** Colons and double quotes reach the option value: the backslashes that
    [escape] adds are exactly those the two levels take away, on every text
    without a backslash of its own. *)
Lemma filter_unescape_escape (s : string) :
  PyStr.contains PyStr.backslash s = false ->
  filter_unescape (escape s) = s.
Proof.
  intros H. unfold filter_unescape. rewrite unescape_escape.
  now apply unescape_marked.
Qed.

End EscapeFacts.

(** C1. Escaping round-trip.  The specification asks that escaping and then
    the de-escape rule of the consuming parser reproduces every string,
    backslashes included.  [escape] doubles the backslashes of the text
    once, in its last pass, while that same pass brings the backslash put
    before a colon or a double quote to two.  Two backslashes last through
    the two levels of the parser, one does not: the colon and the quote
    come back, but the font colour [a\b] reaches the filter as [ab]. *)
Theorem escape_round_trip_fails :
  escape "a\b" = "a\\b"
  /\ item ("fontcolor", VStr "a\b") = "fontcolor=a\\b"
  /\ filter_unescape (escape "a\b") = "ab"
  /\ filter_unescape (escape "a\b") <> "a\b"
  /\ filter_unescape (escape ":") = ":"
  /\ filter_unescape (escape PyStr.dquote_s) = PyStr.dquote_s.
Proof. repeat split; try reflexivity; discriminate. Qed.

(** ** The quantization parameter *)

Section QuantizationParameter.

(** On the GPU path the computation is integer floor division. *)
Lemma qp_gpu (q : Z) : qp true q = Ok (VInt (Z.min ((101 - q) / 2) 51)).
Proof.
  unfold qp, min_51.
  destruct (Z.ltb_spec 51 ((101 - q) / 2)); f_equal; f_equal; lia.
Qed.

Lemma qp_checked_0_100 :
  forallb
    (fun q =>
       forallb
         (fun g =>
            match qp g q with
            | Ok v =>
                match int_value v with
                | Some n =>
                    (n =? floor_qp g q) && (0 <=? n) && (n <=? 51)
                | None => false
                end
            | Raise _ => false
            end)
         [true; false])
    (map Z.of_nat (seq 0 101)) = true.
Proof. vm_compute. reflexivity. Qed.

Lemma in_0_100 (q : Z) :
  0 <= q <= 100 -> In q (map Z.of_nat (seq 0 101)).
Proof.
  intros H. apply in_map_iff. exists (Z.to_nat q). split; [lia|].
  apply in_seq. lia.
Qed.

End QuantizationParameter.

(** C2, as the code has it.  For every quality in [0,100] and both values of
    [gpu], the quantization parameter is
    [min(floor((101 - quality) / d), 51)] with [d] the integer 2 or the
    float 1.7: floor division, not rounding.  Its value is an integer
    between 0 and 51. *)
Theorem qp_is_floor_and_in_range (g : bool) (q : Z) :
  0 <= q <= 100 ->
  exists v,
    qp g q = Ok v
    /\ int_value v = Some (floor_qp g q)
    /\ 0 <= floor_qp g q <= 51.
Proof.
  intros H.
  pose proof qp_checked_0_100 as C.
  rewrite forallb_forall in C. specialize (C q (in_0_100 q H)).
  rewrite forallb_forall in C.
  assert (G : In g [true; false]) by (destruct g; simpl; auto).
  specialize (C g G).
  destruct (qp g q) as [v|e]; [|discriminate].
  destruct (int_value v) as [n|] eqn:E; [|discriminate].
  apply andb_true_iff in C as [C C3]. apply andb_true_iff in C as [C1 C2].
  apply Z.eqb_eq in C1. apply Z.leb_le in C2, C3. subst n.
  exists v. split; [reflexivity | split; [exact E | lia]].
Qed.

(** At the default quality, without the GPU. *)
Lemma qp_is_floor_and_in_range_witness :
  0 <= 72 <= 100
  /\ exists v,
      qp false 72 = Ok v
      /\ int_value v = Some (floor_qp false 72)
      /\ 0 <= floor_qp false 72 <= 51.
Proof.
  split; [lia | apply (qp_is_floor_and_in_range false 72); lia].
Defined.

(** C2, as the specification states it, fails: with the GPU and quality 2
    the code yields 49 where rounding 49.5 gives 50; without the GPU and
    quality 100 it yields 0.0 where rounding 1/1.7 gives 1. *)
Lemma qp_is_not_rounded :
  qp true 2 = Ok (VInt 49) /\ spec_qp true 2 = 50
  /\ qp false 100 = Ok (VFloat (S754_zero false)) /\ spec_qp false 100 = 1.
Proof. repeat split; vm_compute; reflexivity. Qed.

(** ** The output path *)

Section OutputPath.

Local Open Scope list_scope.

(** *** The search for [\.(\w+)$] *)

Lemma span_word_all_word (ext : string) :
  all_word ext = true -> Re.span_word ext = (ext, EmptyString).
Proof.
  induction ext as [|c ext IH]; simpl; [reflexivity|].
  intros H. apply andb_true_iff in H as [Hc He].
  now rewrite Hc, IH.
Qed.

(** Before a later dot the run of word characters cannot reach the end. *)
Lemma span_word_before_dot (r tail : string) :
  exists w r',
    Re.span_word (r ++ String "." tail)%string
    = (w, (r' ++ String "." tail)%string).
Proof.
  induction r as [|c r IH]; simpl.
  - exists EmptyString, EmptyString. reflexivity.
  - destruct (Re.is_word c).
    + destruct IH as (w & r' & ->). now exists (String c w), r'.
    + now exists EmptyString, (String c r).
Qed.

Lemma match_ext_before_dot (r tail : string) :
  Re.match_ext (r ++ String "." tail)%string = None.
Proof.
  unfold Re.match_ext.
  destruct (span_word_before_dot r tail) as (w & r' & ->).
  destruct w as [|x w]; [reflexivity|].
  destruct r' as [|a [|b r']]; simpl; try reflexivity.
  - now destruct (Ascii.eqb _ _).
  - destruct (Ascii.eqb a PyStr.newline); reflexivity.
Qed.

Lemma match_ext_at_end (ext : string) :
  ext <> EmptyString -> all_word ext = true ->
  Re.match_ext ext = Some (ext, EmptyString).
Proof.
  intros Hne Hw. unfold Re.match_ext.
  rewrite span_word_all_word by assumption.
  destruct ext; [contradiction | reflexivity].
Qed.

(** The substitution rewrites the extension of [stem.ext], and only it. *)
Lemma sub_ext_at_extension (repl : string -> string) (stem ext : string) :
  ext <> EmptyString -> all_word ext = true ->
  Re.sub_ext repl (stem ++ String "." ext)%string
  = (stem ++ repl ext)%string.
Proof.
  intros Hne Hw. induction stem as [|c stem IH]; simpl.
  - rewrite match_ext_at_end by assumption. apply append_nil_r.
  - rewrite match_ext_before_dot, IH. now destruct (Ascii.eqb c ".").
Qed.

(** *** The replacement template *)

Lemma run_append (s t : string) (st : Re.tstate * list Re.piece) :
  Re.run (s ++ t)%string st = Re.run t (Re.run s st).
Proof. revert st. induction s as [|c s IH]; intros st; simpl; auto. Qed.

Lemma run_plain (s : string) (out : list Re.piece) :
  PyStr.contains PyStr.backslash s = false ->
  Re.run s (Re.TNormal, out) = (Re.TNormal, out ++ lits s).
Proof.
  revert out. induction s as [|c s IH]; intros out H; simpl in *.
  - now rewrite app_nil_r.
  - apply orb_false_iff in H as [Hc Hs].
    unfold Re.normal. rewrite Hc, IH by assumption.
    now rewrite <- app_assoc.
Qed.

Lemma parse_template_plain (suffix : string) :
  PyStr.contains PyStr.backslash suffix = false ->
  Re.parse_template (suffix ++ ".\1")%string
  = Ok (lits suffix ++ [Re.Lit "."; Re.Group 1]).
Proof.
  intros H. unfold Re.parse_template.
  rewrite run_append, run_plain by assumption. simpl.
  now rewrite <- app_assoc.
Qed.

Lemma expand_app (ext : string) (ps qs : list Re.piece) :
  Re.expand ext (ps ++ qs)
  = (Re.expand ext ps ++ Re.expand ext qs)%string.
Proof.
  induction ps as [|[c|n] ps IH]; simpl; [reflexivity| |];
    rewrite IH; [reflexivity | now rewrite append_assoc].
Qed.

Lemma expand_lits (ext s : string) : Re.expand ext (lits s) = s.
Proof. induction s as [|c s IH]; simpl; [reflexivity | now rewrite IH]. Qed.

End OutputPath.

(** X29. For a suffix without a backslash the output path is the input
    path with the suffix inserted just before its extension, the last
    dot-and-word-characters segment at the end of the string; this covers
    the suffixes made of letters, digits, underscore and hyphen. *)
Theorem output_inserts_suffix (stem ext sfx : string) :
  ext <> EmptyString ->
  all_word ext = true ->
  PyStr.contains PyStr.backslash sfx = false ->
  output (stem ++ "." ++ ext) sfx = Ok (stem ++ sfx ++ "." ++ ext).
Proof.
  intros Hne Hw Hs. unfold output, Re.sub.
  rewrite parse_template_plain by assumption. simpl rbind.
  rewrite (sub_ext_at_extension _ stem ext Hne Hw).
  rewrite expand_app, expand_lits. simpl. now rewrite append_nil_r.
Qed.

(** The two examples of the specification. *)
Lemma output_inserts_suffix_witness :
  output "video.mp4" "_ts" = Ok "video_ts.mp4"
  /\ output "clip.mov" "_stamped" = Ok "clip_stamped.mov".
Proof.
  split.
  - apply (output_inserts_suffix "video" "mp4" "_ts");
      [discriminate | reflexivity | reflexivity].
  - apply (output_inserts_suffix "clip" "mov" "_stamped");
      [discriminate | reflexivity | reflexivity].
Defined.

(** C7. The output path is meant to be the input path with the suffix
    inserted before the extension, and the preview of the GUI (line 287)
    writes it that way.  Line 83 splices the suffix into the replacement
    template of [re.sub] instead, where a backslash starts an escape: for
    the suffix [_\1], which the check of [start] lets through, the preview
    shows [video_\1.mp4] and the command writes to [video_mp4.mp4]; for
    [_\q] the template is refused and the exception leaves [process].  The
    two examples of the specification come out as stated. *)
Theorem output_reads_suffix_as_template :
  re_match_prefix "_\1" = true
  /\ update_example "_\1" = "video.mp4 => video_\1.mp4"
  /\ output "video.mp4" "_\1" = Ok "video_mp4.mp4"
  /\ (exists cmd,
        process Sample.env "video.mp4" (with_suffix Sample.defaults "_\1")
        = ([], Ok (Some cmd))
        /\ last cmd EmptyString = "video_mp4.mp4")
  /\ process Sample.env "video.mp4" (with_suffix Sample.defaults "_\q")
     = ([], Raise TemplateError)
  /\ output "video.mp4" "_ts" = Ok "video_ts.mp4"
  /\ output "clip.mov" "_stamped" = Ok "clip_stamped.mov".
Proof.
  repeat split; try (vm_compute; reflexivity).
  eexists. split; vm_compute; reflexivity.
Qed.

Section OutputDiffers.

Local Open Scope list_scope.

Ltac branch :=
  repeat match goal with
    | |- context [if ?b then _ else _] => destruct b
    | |- context [match ?o with Some _ => _ | None => _ end] => destruct o
    | |- context [match ?s with EmptyString => _ | String _ _ => _ end] =>
        destruct s
    end.

Ltac settle :=
  simpl; intros;
  try discriminate;
  try (let E := fresh "E" in
       intros E; apply app_eq_nil in E as [_ E]; discriminate E).

(** Whenever a step leaves the scanner between tokens, something has been
    emitted. *)
Lemma step_settles (s : Re.tstate * list Re.piece) (c : ascii) :
  fst (Re.step s c) = Re.TNormal -> snd (Re.step s c) <> [].
Proof.
  destruct s as [st out].
  destruct st; unfold Re.step, Re.normal, Re.group_by_name, Re.addgroup;
    branch; settle.
Qed.

Lemma run_settles (s : string) (st : Re.tstate * list Re.piece) :
  s <> EmptyString ->
  fst (Re.run s st) = Re.TNormal -> snd (Re.run s st) <> [].
Proof.
  revert st. induction s as [|c s IH]; intros st Hne; [contradiction|].
  simpl. destruct s as [|c' s].
  - simpl. apply step_settles.
  - apply IH. discriminate.
Qed.

Variable ext : string.
Hypothesis ext_nonempty : ext <> EmptyString.

Lemma ext_length : (1 <= String.length ext)%nat.
Proof using ext_nonempty. destruct ext; [contradiction | simpl; lia]. Qed.

Lemma expand_nonempty (ps : list Re.piece) :
  ps <> [] -> (1 <= String.length (Re.expand ext ps))%nat.
Proof using ext_nonempty.
  pose proof ext_length.
  destruct ps as [|[c|n] ps]; [contradiction| |]; intros _; simpl.
  - lia.
  - rewrite length_append. destruct (n =? 0)%N; simpl; lia.
Qed.

(** What the fixed end of the template, a dot and a reference to group 1,
    adds after the suffix has been scanned. *)
Lemma template_end (st : Re.tstate) (out ps : list Re.piece) :
  (let '(st', out') := Re.run ".\1" (st, out) in Re.flush st' out')
  = (Re.TNormal, ps) ->
  exists extra,
    ps = out ++ extra
    /\ (1 + String.length ext <= String.length (Re.expand ext extra))%nat
    /\ (st <> Re.TNormal ->
        2 + String.length ext <= String.length (Re.expand ext extra))%nat.
Proof using ext_nonempty.
  pose proof ext_length as L.
  destruct st; simpl.
  all: change (Re.is_octdigit ".") with false; rewrite ?andb_false_r.
  all: unfold Re.addgroup.
  all: branch.
  all: intros H; try discriminate H.
  all: injection H as <-.
  all: rewrite <- ?app_assoc; eexists; (split; [reflexivity|]).
  all: simpl; rewrite ?length_append; simpl.
  all: branch; simpl; rewrite ?append_nil_r, ?length_append; simpl.
  all: split; [lia | intros; try lia; congruence].
Qed.

End OutputDiffers.

(** C3. For every input path with an extension and every non-empty suffix,
    the output path differs from the input path: whatever the template
    built from the suffix expands to, it is longer than the bare
    extension it replaces (or the template is rejected and there is no
    output path). *)
Theorem output_differs_from_input (filename sfx : string) :
  has_extension filename ->
  sfx <> EmptyString ->
  output filename sfx <> Ok filename.
Proof.
  intros (stem & ext & -> & Hne & Hw) Hs.
  unfold output, Re.sub, Re.parse_template.
  rewrite run_append.
  destruct (Re.run sfx (Re.TNormal, [])) as [st out] eqn:R.
  destruct (Re.run ".\1" (st, out)) as [st' out'] eqn:R2.
  destruct (Re.flush st' out') as [st2 ps] eqn:T.
  assert (T' : (let '(st', out') := Re.run ".\1" (st, out) in
                Re.flush st' out') = (st2, ps)) by (rewrite R2; exact T).
  destruct st2; simpl; try discriminate.
  destruct (template_end ext Hne st out ps T') as (extra & -> & L1 & L2).
  change (stem ++ "." ++ ext) with (stem ++ String "." ext).
  rewrite (sub_ext_at_extension _ stem ext Hne Hw).
  intros E. injection E as E.
  apply (f_equal String.length) in E.
  rewrite !length_append, expand_app, length_append in E. simpl in E.
  assert (Hout : st = Re.TNormal -> out <> []%list).
  { intros ->. pose proof (run_settles sfx (Re.TNormal, []%list) Hs) as S.
    rewrite R in S. now apply S. }
  destruct st;
    try (assert (Re.TNormal <> Re.TNormal -> False) by congruence);
    try (specialize (L2 ltac:(discriminate)); lia).
  pose proof (expand_nonempty ext Hne out (Hout eq_refl)). lia.
Qed.

(** At the default suffix. *)
Lemma output_differs_from_input_witness :
  has_extension "video.mp4" /\ "_ts" <> EmptyString
  /\ output "video.mp4" "_ts" <> Ok "video.mp4".
Proof.
  assert (H : has_extension "video.mp4").
  { exists "video", "mp4". repeat split; discriminate. }
  split; [exact H | split; [discriminate|]].
  apply (output_differs_from_input "video.mp4" "_ts" H). discriminate.
Defined.

(** ** What a successful [process] has computed *)

Section Planning.

Lemma getitem_ok {A} (entry : option A) (a : A) :
  getitem entry = Ok a -> entry = Some a.
Proof. destruct entry; simpl; congruence. Qed.

Ltac step_bind H :=
  match type of H with
  | rbind ?r _ = Ok _ =>
      let E := fresh "E" in
      destruct r eqn:E; cbn [rbind] in H; [|discriminate H]
  end.

Lemma command_plans (filename : string) (o : Options) (stream : Stream)
  (ctime : PyFloat.float) (cmd : list string) :
  command filename o stream ctime = Ok cmd ->
  exists p, plans filename o stream ctime p
            /\ cmd = plan_arguments filename o p.
Proof.
  unfold command. intros H.
  repeat step_bind H. injection H as <-.
  repeat match goal with
    | E : getitem _ = Ok _ |- _ => apply getitem_ok in E
    end.
  match goal with
  | _ : scaled_size _ _ _ = Ok ?s, _ : offset _ _ _ = Ok ?m,
    _ : codec_name _ = Some ?c, _ : qp _ _ = Ok ?q,
    _ : output _ _ = Ok ?out, _ : PyFloat.truediv (opacity _) _ = Ok ?al,
    _ : PyFloat.truediv ?s _ = Ok ?bw, _ : PyFloat.to_int _ = Ok ?ts |- _ =>
      exists {| p_scaled := s; p_offset := m; p_codec := c; p_qp := q;
                p_output := out; p_alpha := al; p_borderw := bw;
                p_timestamp := ts |}
  end.
  split; [|reflexivity].
  unfold plans; simpl. eauto 12.
Qed.

Lemma plans_command (filename : string) (o : Options) (stream : Stream)
  (ctime : PyFloat.float) (p : Plan) :
  plans filename o stream ctime p ->
  command filename o stream ctime = Ok (plan_arguments filename o p).
Proof.
  intros (w & h & Hw & Hh & Hs & Hm & Hc & Hq & Ho & Ha & Hb & Ht).
  unfold command. rewrite Hw, Hh. cbn [getitem rbind].
  rewrite Hs. cbn [rbind]. rewrite Hm. cbn [rbind].
  rewrite Hc. cbn [getitem rbind]. rewrite Hq. cbn [rbind].
  rewrite Ho. cbn [rbind]. rewrite Ha. cbn [rbind].
  rewrite Hb. cbn [rbind]. rewrite Ht. reflexivity.
Qed.

Lemma process_plans (env : Env) (filename : string) (o : Options)
  (t : list event) (cmd : list string) :
  process env filename o = (t, Ok (Some cmd)) ->
  exists streams stream ctime p,
    probe env filename = Ok streams
    /\ first_video streams = Ok stream
    /\ snd (creation_time_of env filename stream) = Ok ctime
    /\ plans filename o stream ctime p
    /\ cmd = plan_arguments filename o p.
Proof.
  unfold process. intros H.
  destruct (probe env filename) as [streams|e] eqn:P.
  2: { destruct e; simpl in H; discriminate H. }
  destruct (first_video streams) as [stream|e] eqn:F;
    [|simpl in H; discriminate H].
  simpl in H.
  destruct (creation_time_of env filename stream) as [t1 [ctime|e]] eqn:C;
    [|simpl in H; discriminate H].
  simpl in H.
  destruct (command filename o stream ctime) as [c|e] eqn:K;
    [|simpl in H; discriminate H].
  simpl in H. injection H as _ <-.
  destruct (command_plans _ _ _ _ _ K) as (p & Hp & ->).
  exists streams, stream, ctime, p. rewrite C. repeat split; auto.
Qed.

End Planning.

(** ** The sample world, evaluated *)

Section Evaluation.

Example process_defaults :
  process Sample.env "video.mp4" Sample.defaults
  = ([], Ok (Some Sample.default_command)).
Proof. vm_compute. reflexivity. Qed.

Example process_gpu_right_top :
  process Sample.env "dir.v2/clip.mov"
    {| suffix := "-stamped"; size := PyFloat.of_Z 24;
       margin := PyFloat.of_Z 10; position_x := "right";
       position_y := "top"; font := "C:\Fonts\a.ttf"; color := "#FFFFFF";
       border := "#000000"; opacity := PyFloat.of_Z 50; gpu := true;
       quality := 90 |}
  = ([],
     Ok (Some
           ["ffmpeg"; "-y"; "-hide_banner"; "-hwaccel"; "cuda"; "-c:v";
            "h264_cuvid"; "-i"; "dir.v2/clip.mov"; "-c:a"; "copy";
            "-qp"; "5"; "-vf";
            "drawtext=" ++ PyStr.dquote_s
            ++ "alpha=0.5:fontfile=C\\:/Fonts/a.ttf:fontcolor=#FFFFFF"
            ++ ":fontsize=86.4:bordercolor=#000000:borderw=5.4"
            ++ ":x=W-text_w-36.0:y=36.0"
            ++ ":text=%{pts\\:localtime\\:1700000000}";
            "-c:v"; "h264_nvenc"; "dir.v2/clip-stamped.mov"])).
Proof. vm_compute. reflexivity. Qed.

(** A backslash in the suffix is read as an escape of the replacement
    template. *)
Example output_with_group_reference_in_suffix :
  output "video.mp4" "\1" = Ok "videomp4.mp4"
  /\ output "video.mp4" "_\n" = Ok ("video_" ++ nl ++ ".mp4")
  /\ output "video.mp4" "\q" = Raise TemplateError.
Proof. repeat split; vm_compute; reflexivity. Qed.

(** Without an extension the path is returned unchanged. *)
Example output_without_extension :
  output "video" "_ts" = Ok "video" /\ output "clip.m-4" "_ts" = Ok "clip.m-4".
Proof. split; vm_compute; reflexivity. Qed.

End Evaluation.

(** ** Scaling and the margin offset *)

Section Scaling.

Lemma truediv_nonzero (x y : PyFloat.float) :
  PyFloat.is_zero y = false -> PyFloat.truediv x y = Ok (PyFloat.div x y).
Proof. unfold PyFloat.truediv. now intros ->. Qed.

Lemma truediv_zero (x y : PyFloat.float) :
  PyFloat.is_zero y = true -> PyFloat.truediv x y = Raise ZeroDivisionError.
Proof. unfold PyFloat.truediv. now intros ->. Qed.

Lemma truediv_ok (x y q : PyFloat.float) :
  PyFloat.truediv x y = Ok q ->
  PyFloat.is_zero y = false /\ q = PyFloat.div x y.
Proof.
  unfold PyFloat.truediv. destruct (PyFloat.is_zero y); [discriminate|].
  intros H. injection H as <-. auto.
Qed.

(** Line 67 succeeds as soon as the smaller dimension converts to a
    float. *)
Lemma scaled_size_value (size : PyFloat.float) (w h : Z) (mn : PyFloat.float) :
  PyFloat.of_int (Z.min w h) = Ok mn ->
  scaled_size size w h
  = Ok (PyFloat.div (PyFloat.mul size mn) (PyFloat.of_Z 300)).
Proof.
  intros H. unfold scaled_size. rewrite H. cbn [rbind].
  now apply truediv_nonzero.
Qed.

Lemma scaled_size_ok (size : PyFloat.float) (w h : Z) (s : PyFloat.float) :
  scaled_size size w h = Ok s ->
  exists mn,
    PyFloat.of_int (Z.min w h) = Ok mn
    /\ s = PyFloat.div (PyFloat.mul size mn) (PyFloat.of_Z 300).
Proof.
  unfold scaled_size.
  destruct (PyFloat.of_int (Z.min w h)) as [mn|e]; [|discriminate].
  cbn [rbind]. intros H. apply truediv_ok in H as [_ ->]. now exists mn.
Qed.

(** Floor division by a non-zero float does not raise. *)
Lemma floordiv_nonzero (vx wx : PyFloat.float) :
  PyFloat.is_zero wx = false -> exists d, PyFloat.floordiv vx wx = Ok d.
Proof.
  intros H. unfold PyFloat.floordiv. rewrite H. cbv zeta.
  repeat match goal with
    | |- context [if ?b then _ else _] => destruct b
    end; eexists; reflexivity.
Qed.

(** The float path of line 82 only fails when [101 - quality] is too large
    to be converted. *)
Lemma qp_cpu (q : Z) (n : PyFloat.float) :
  PyFloat.of_int (101 - q) = Ok n ->
  exists d,
    PyFloat.floordiv n PyFloat.lit_1_7 = Ok d
    /\ qp false q = Ok (min_51 (VFloat d)).
Proof.
  intros H.
  destruct (floordiv_nonzero n PyFloat.lit_1_7 eq_refl) as (d & D).
  exists d. split; [exact D|].
  unfold qp. rewrite H. cbn [rbind]. rewrite D. reflexivity.
Qed.

(** For a suffix without a backslash the template is accepted, whatever the
    file name. *)
Lemma output_plain (filename sfx : string) :
  PyStr.contains PyStr.backslash sfx = false ->
  output filename sfx
  = Ok (Re.sub_ext (fun ext => sfx ++ "." ++ ext) filename).
Proof.
  intros H. unfold output, Re.sub.
  rewrite parse_template_plain by assumption. cbn [rbind]. f_equal.
  assert (E : forall ext,
             Re.expand ext (lits sfx ++ [Re.Lit "."; Re.Group 1])%list
             = sfx ++ "." ++ ext).
  { intros ext. rewrite expand_app, expand_lits. simpl.
    now rewrite append_nil_r. }
  induction filename as [|c f IH]; simpl; [reflexivity|].
  rewrite IH. destruct (Ascii.eqb c "."); [|reflexivity].
  destruct (Re.match_ext f) as [[w t]|]; [|reflexivity].
  now rewrite E.
Qed.

(** [process] returns a command as soon as the probe finds a video stream
    with dimensions, codec name and a usable creation time, the text size
    is not zero, the numbers convert, and the suffix has no backslash. *)
Lemma process_succeeds (env : Env) (filename : string) (o : Options)
  (streams : list Stream) (stream : Stream) (t : list event)
  (ctime mn : PyFloat.float) (w h ts : Z) (codec : string) (q : value) :
  probe env filename = Ok streams ->
  first_video streams = Ok stream ->
  creation_time_of env filename stream = (t, Ok ctime) ->
  width stream = Some w ->
  height stream = Some h ->
  PyFloat.of_int (Z.min w h) = Ok mn ->
  PyFloat.is_zero (size o) = false ->
  codec_name stream = Some codec ->
  qp (gpu o) (quality o) = Ok q ->
  PyStr.contains PyStr.backslash (suffix o) = false ->
  PyFloat.to_int ctime = Ok ts ->
  exists p,
    process env filename o = (t, Ok (Some (plan_arguments filename o p)))
    /\ plans filename o stream ctime p.
Proof.
  intros P F C W H M Z K Q S T.
  pose (sc := PyFloat.div (PyFloat.mul (size o) mn) (PyFloat.of_Z 300)).
  pose (p := {| p_scaled := sc;
                p_offset := PyFloat.div (PyFloat.mul (margin o) sc) (size o);
                p_codec := codec; p_qp := q;
                p_output :=
                  Re.sub_ext (fun ext => suffix o ++ "." ++ ext) filename;
                p_alpha := PyFloat.div (opacity o) (PyFloat.of_Z 100);
                p_borderw := PyFloat.div sc (PyFloat.of_Z 16);
                p_timestamp := ts |}).
  assert (Hp : plans filename o stream ctime p).
  { exists w, h. unfold p, sc; cbn [p_scaled p_offset p_codec p_qp p_output
                                   p_alpha p_borderw p_timestamp].
    repeat split; try assumption.
    - now apply scaled_size_value.
    - unfold offset. now apply truediv_nonzero.
    - now apply output_plain. }
  exists p. split; [|exact Hp].
  unfold process. rewrite P, F. cbn [lift bind]. rewrite C.
  cbn [lift bind]. rewrite (plans_command _ _ _ _ _ Hp). cbn [bind ret].
  now rewrite !app_nil_r.
Qed.

End Scaling.

(** C4, as the code has it.  Nothing guards the division by the text size:
    with a size of zero, once the probe has delivered a video stream with
    its dimensions and creation time, [process] raises [ZeroDivisionError]
    at the margin division; and whenever [process] returns a command, the
    size is not zero and the margin offset is [margin * scaled_size / size]
    in float arithmetic. *)
Theorem zero_size_raises_else_offset (env : Env) (filename : string)
  (o : Options) :
  (forall streams stream t ctime w h mn,
      probe env filename = Ok streams ->
      first_video streams = Ok stream ->
      creation_time_of env filename stream = (t, Ok ctime) ->
      width stream = Some w ->
      height stream = Some h ->
      PyFloat.of_int (Z.min w h) = Ok mn ->
      PyFloat.is_zero (size o) = true ->
      process env filename o = (t, Raise ZeroDivisionError))
  /\ (forall t cmd,
         process env filename o = (t, Ok (Some cmd)) ->
         PyFloat.is_zero (size o) = false
         /\ exists p,
             cmd = plan_arguments filename o p
             /\ p_offset p
                = PyFloat.div (PyFloat.mul (margin o) (p_scaled p)) (size o)).
Proof.
  split.
  - intros streams stream t ctime w h mn P F C W H M Z.
    unfold process. rewrite P, F. cbn [lift bind]. rewrite C.
    unfold command. rewrite W, H. cbn [getitem rbind].
    rewrite (scaled_size_value _ _ _ _ M). cbn [rbind].
    unfold offset. rewrite (truediv_zero _ _ Z). cbn [rbind lift bind].
    now rewrite app_nil_r.
  - intros t cmd H.
    destruct (process_plans _ _ _ _ _ H)
      as (streams & stream & ctime & p & _ & _ & _ & Hp & ->).
    destruct Hp as (w & h & _ & _ & _ & Hm & _).
    unfold offset in Hm. apply truediv_ok in Hm as [Hz Hm].
    split; [exact Hz|]. exists p. split; [reflexivity | exact Hm].
Qed.

(** On the sample world: a size of zero, and the default size. *)
Lemma zero_size_raises_else_offset_witness :
  process Sample.env "video.mp4" Sample.zero_size
  = ([], Raise ZeroDivisionError)
  /\ PyFloat.is_zero (size Sample.defaults) = false.
Proof.
  split.
  - apply (proj1 (zero_size_raises_else_offset Sample.env "video.mp4"
                    Sample.zero_size)
             [Sample.audio_stream; Sample.video_stream] Sample.video_stream
             [] (PyFloat.of_Z 1700000000) 1920 1080 (PyFloat.of_Z 1080));
      reflexivity.
  - apply (proj2 (zero_size_raises_else_offset Sample.env "video.mp4"
                    Sample.defaults) [] Sample.default_command).
    vm_compute. reflexivity.
Defined.

(** C4, as the specification states it, fails: a text size of zero is not
    turned into an invalid-option failure; the division is reached and
    [ZeroDivisionError] leaves [process] (and stops the batch). *)
Lemma zero_size_is_not_guarded :
  process Sample.env "video.mp4" Sample.zero_size
  = ([], Raise ZeroDivisionError)
  /\ handle_cli Sample.env ["video.mp4"; "clip.mov"] true Sample.zero_size
     = ([], Raise ZeroDivisionError).
Proof. split; vm_compute; reflexivity. Qed.

(** C6. For a file that [process] plans, the font size it passes is
    [size * min(width, height) / 300] and the border width is that value
    divided by 16, both as Python computes them on floats; they are the
    [fontsize] and [borderw] entries of the [drawtext] dictionary. *)
Theorem scaled_font_size_and_border (env : Env) (filename : string)
  (o : Options) (t : list event) (cmd : list string) :
  process env filename o = (t, Ok (Some cmd)) ->
  exists streams stream w h mn p,
    probe env filename = Ok streams
    /\ first_video streams = Ok stream
    /\ width stream = Some w
    /\ height stream = Some h
    /\ PyFloat.of_int (Z.min w h) = Ok mn
    /\ p_scaled p
       = PyFloat.div (PyFloat.mul (size o) mn) (PyFloat.of_Z 300)
    /\ p_borderw p = PyFloat.div (p_scaled p) (PyFloat.of_Z 16)
    /\ cmd = plan_arguments filename o p
    /\ In ("fontsize", VFloat (p_scaled p)) (plan_drawtext o p)
    /\ In ("borderw", VFloat (p_borderw p)) (plan_drawtext o p).
Proof.
  intros H.
  destruct (process_plans _ _ _ _ _ H)
    as (streams & stream & ctime & p & P & F & _ & Hp & ->).
  destruct Hp as (w & h & W & Hh & S & _ & _ & _ & _ & _ & B & _).
  apply scaled_size_ok in S as (mn & M & S).
  apply truediv_ok in B as [_ B].
  exists streams, stream, w, h, mn, p.
  repeat (split; [assumption || reflexivity|]).
  unfold plan_drawtext, drawtext. simpl. tauto.
Qed.

(** On the sample world, with the defaults. *)
Lemma scaled_font_size_and_border_witness :
  exists streams stream w h mn p,
    probe Sample.env "video.mp4" = Ok streams
    /\ first_video streams = Ok stream
    /\ width stream = Some w
    /\ height stream = Some h
    /\ PyFloat.of_int (Z.min w h) = Ok mn
    /\ p_scaled p
       = PyFloat.div (PyFloat.mul (size Sample.defaults) mn)
           (PyFloat.of_Z 300)
    /\ p_borderw p = PyFloat.div (p_scaled p) (PyFloat.of_Z 16)
    /\ Sample.default_command
       = plan_arguments "video.mp4" Sample.defaults p
    /\ In ("fontsize", VFloat (p_scaled p)) (plan_drawtext Sample.defaults p)
    /\ In ("borderw", VFloat (p_borderw p)) (plan_drawtext Sample.defaults p).
Proof.
  apply (scaled_font_size_and_border Sample.env "video.mp4" Sample.defaults
           [] Sample.default_command).
  vm_compute. reflexivity.
Defined.

(** C8. Position expressions.  For a file that [process] plans, the [x]
    and [y] entries of the [drawtext] dictionary are chosen by the position
    options: [left] and [top] give the margin offset itself, [center] the
    centring expression, in which the margin does not occur, [right] and
    [bottom] the expression that subtracts the text extent and the margin
    offset. *)
Theorem position_expression_selection (env : Env) (filename : string)
  (o : Options) (t : list event) (cmd : list string) :
  process env filename o = (t, Ok (Some cmd)) ->
  exists p,
    cmd = plan_arguments filename o p
    /\ offset (margin o) (p_scaled p) (size o) = Ok (p_offset p)
    /\ In ("x", x_expr (position_x o) (p_offset p)) (plan_drawtext o p)
    /\ In ("y", y_expr (position_y o) (p_offset p)) (plan_drawtext o p)
    /\ (position_x o = "left" ->
        x_expr (position_x o) (p_offset p) = VFloat (p_offset p))
    /\ (position_x o = "center" ->
        x_expr (position_x o) (p_offset p) = VStr "(W-text_w)/2")
    /\ (position_x o = "right" ->
        x_expr (position_x o) (p_offset p)
        = VStr ("W-text_w-" ++ PyFloat.repr (p_offset p)))
    /\ (position_y o = "top" ->
        y_expr (position_y o) (p_offset p) = VFloat (p_offset p))
    /\ (position_y o = "center" ->
        y_expr (position_y o) (p_offset p) = VStr "(H-text_h)/2")
    /\ (position_y o = "bottom" ->
        y_expr (position_y o) (p_offset p)
        = VStr ("H-text_h-" ++ PyFloat.repr (p_offset p))).
Proof.
  intros H.
  destruct (process_plans _ _ _ _ _ H)
    as (streams & stream & ctime & p & _ & _ & _ & Hp & ->).
  destruct Hp as (w & h & _ & _ & _ & Hm & _).
  exists p. split; [reflexivity|]. split; [exact Hm|].
  split; [unfold plan_drawtext, drawtext; simpl; tauto|].
  split; [unfold plan_drawtext, drawtext; simpl; tauto|].
  repeat split; intros ->; reflexivity.
Qed.

(** On the sample world, with the defaults: left and bottom. *)
Lemma position_expression_selection_witness :
  exists p,
    Sample.default_command = plan_arguments "video.mp4" Sample.defaults p
    /\ offset (margin Sample.defaults) (p_scaled p) (size Sample.defaults)
       = Ok (p_offset p)
    /\ In ("x", VFloat (p_offset p)) (plan_drawtext Sample.defaults p)
    /\ In ("y", VStr ("H-text_h-" ++ PyFloat.repr (p_offset p)))
         (plan_drawtext Sample.defaults p).
Proof.
  destruct (position_expression_selection Sample.env "video.mp4"
              Sample.defaults [] Sample.default_command)
    as (p & A & M & X & Y & _); [vm_compute; reflexivity|].
  exists p. repeat split; assumption.
Defined.

(** ** Probe failures in the batch *)

Section ProbeFailures.

Variable env : Env.
Variable o : Options.

(** A probe that exits with a nonzero status is reported and the file is
    dropped. *)
Lemma process_probe_error (filename : string) :
  probe env filename = Raise CalledProcessError ->
  process env filename o
  = ([Print ("Error: invalid input file " ++ filename)], Ok None).
Proof. unfold process. now intros ->. Qed.

(** ... and the batch goes on with the remaining files. *)
Lemma cli_loop_skips_probe_error (verbose : bool) (filename : string)
  (rest : list string) :
  probe env filename = Raise CalledProcessError ->
  cli_loop env verbose o (filename :: rest)
  = (Print ("Error: invalid input file " ++ filename)
       :: fst (cli_loop env verbose o rest),
     snd (cli_loop env verbose o rest)).
Proof.
  intros P. cbn [cli_loop]. rewrite (process_probe_error _ P).
  cbn [bind ret app]. now destruct (cli_loop env verbose o rest) as [t r].
Qed.

Lemma first_video_none (streams : list Stream) :
  Forall (fun s => exists t, codec_type s = Some t /\ t <> "video") streams ->
  first_video streams = Raise StopIteration.
Proof.
  induction 1 as [|s streams (t & Ht & Hn) _ IH]; [reflexivity|].
  cbn [first_video]. rewrite Ht. cbn [getitem rbind].
  apply String.eqb_neq in Hn. now rewrite Hn.
Qed.

(** A file without a video stream is not reported: [StopIteration] leaves
    [process] ... *)
Lemma process_no_video (filename : string) (streams : list Stream) :
  probe env filename = Ok streams ->
  Forall (fun s => exists t, codec_type s = Some t /\ t <> "video") streams ->
  process env filename o = ([], Raise StopIteration).
Proof.
  intros P F. unfold process. rewrite P, (first_video_none _ F). reflexivity.
Qed.

(** ... and ends the batch before the remaining files are looked at. *)
Lemma cli_loop_stops_without_video (verbose : bool) (filename : string)
  (streams : list Stream) (rest : list string) :
  probe env filename = Ok streams ->
  Forall (fun s => exists t, codec_type s = Some t /\ t <> "video") streams ->
  cli_loop env verbose o (filename :: rest) = ([], Raise StopIteration).
Proof.
  intros P F. cbn [cli_loop]. now rewrite (process_no_video _ _ P F).
Qed.

End ProbeFailures.

(** C5.  A failed probe is handled as the specification says: the file is
    reported, skipped, and the batch continues ([broken.mp4] below).  A file
    without a video stream is not: line 55 catches [CalledProcessError]
    only, so the [StopIteration] of line 54 leaves [process] and
    [handle_cli]; nothing is printed and [video.mp4], next in the batch, is
    never processed. *)
Theorem no_video_stream_stops_the_batch :
  process Sample.env "song.mp3" Sample.defaults = ([], Raise StopIteration)
  /\ handle_cli Sample.env ["song.mp3"; "video.mp4"] true Sample.defaults
     = ([], Raise StopIteration)
  /\ handle_cli Sample.env ["broken.mp4"; "video.mp4"] true Sample.defaults
     = ([Print "Error: invalid input file broken.mp4";
         Print "Processing video.mp4";
         Run Sample.default_command], Ok tt).
Proof. repeat split; vm_compute; reflexivity. Qed.

(** ** The suffix check of the GUI *)

Section SuffixCheck.

Variable env : Env.

(** The callback goes on to the file dialog exactly when the suffix
    starts with a character of the class; the rest is not looked at. *)
Lemma start_looks_at_first_character (g : Gui) :
  (exists evs, start env g = AskFiles :: evs)
  <-> re_match_prefix (suffix_textbox g) = true.
Proof.
  unfold start.
  destruct (suffix_textbox g) as [|c rest]; simpl.
  - split; [intros (evs & H); discriminate | discriminate].
  - destruct (prefix_re c); simpl.
    + split; [reflexivity | intros _; eauto].
    + split; [intros (evs & H); discriminate | discriminate].
Qed.

End SuffixCheck.

(** C9.  The specification wants every character of the suffix checked.
    The callback matches the one-character pattern of line 18 at the start
    of the text only: the suffix [_ts/../x] breaks the rule, yet no error
    is shown, the file dialog and the confirmation follow, and the worker
    thread is started. *)
Theorem start_accepts_invalid_suffix :
  valid_suffix "_ts/../x" = false
  /\ start Sample.env
       {| suffix_textbox := "_ts/../x"; selected_files := ["video.mp4"];
          confirmed := true; running := false |}
     = [AskFiles;
        YesNo "Confirmation" ("Process 1 file?" ++ nl ++ "video.mp4");
        ShowProgress;
        ThreadStart ["video.mp4"]]
  /\ starts_thread
       (start Sample.env
          {| suffix_textbox := "_ts/../x"; selected_files := ["video.mp4"];
             confirmed := true; running := false |}) = true.
Proof. repeat split; vm_compute; reflexivity. Qed.

(** ** The characters of printed numbers *)

Section NumberText.

Variable P : ascii -> bool.

Lemma all_chars_append (s t : string) :
  all_chars P (s ++ t) = all_chars P s && all_chars P t.
Proof.
  induction s as [|c s IH]; simpl; [reflexivity|].
  now rewrite IH, andb_assoc.
Qed.

Lemma all_chars_substring (s : string) (n m : nat) :
  all_chars P s = true -> all_chars P (substring n m s) = true.
Proof.
  revert n m. induction s as [|c s IH]; intros n m H.
  - destruct n, m; reflexivity.
  - simpl in H. apply andb_true_iff in H as [Hc Hs].
    destruct n, m; simpl; auto.
    now rewrite Hc, IH.
Qed.

Lemma all_chars_forallb (s : string) :
  all_chars P s = forallb P (list_ascii_of_string s).
Proof. induction s as [|c s IH]; simpl; [reflexivity | now rewrite IH]. Qed.

Lemma all_chars_absent (c : ascii) (s : string) :
  all_chars P s = true -> P c = false -> PyStr.contains c s = false.
Proof.
  intros H Hc. induction s as [|a s IH]; simpl in *; [reflexivity|].
  apply andb_true_iff in H as [Ha Hs]. rewrite (IH Hs), orb_false_r.
  apply Ascii.eqb_neq. intros ->. congruence.
Qed.

Lemma forallb_strip_zeros_rev (l : list ascii) :
  forallb P l = true -> forallb P (PyFloat.strip_zeros_rev l) = true.
Proof.
  induction l as [|c l IH]; simpl; [reflexivity|].
  intros H. apply andb_true_iff in H as [Hc Hl].
  destruct (Ascii.eqb_spec c "0") as [->|N].
  - auto.
  - assert (E : PyFloat.strip_zeros_rev (c :: l) = c :: l).
    { destruct c as [[] [] [] [] [] [] [] []]; try reflexivity.
      now contradiction N. }
    simpl in E. rewrite E. simpl. now rewrite Hc, Hl.
Qed.

Lemma forallb_rev (l : list ascii) :
  forallb P l = true -> forallb P (rev l) = true.
Proof.
  rewrite !forallb_forall. intros H x Hx. apply H. now apply in_rev.
Qed.

Lemma all_chars_strip_trailing_zeros (s : string) :
  all_chars P s = true ->
  all_chars P (PyFloat.strip_trailing_zeros s) = true.
Proof.
  unfold PyFloat.strip_trailing_zeros.
  rewrite !all_chars_forallb, list_ascii_of_string_of_list_ascii.
  intros H. now apply forallb_rev, forallb_strip_zeros_rev, forallb_rev.
Qed.

End NumberText.

Section NumericText.

Lemma numeric_uint (d : Decimal.uint) :
  all_chars numeric_char (NilEmpty.string_of_uint d) = true.
Proof. induction d; simpl; auto. Qed.

Lemma numeric_of_Z (n : Z) : all_chars numeric_char (PyStr.of_Z n) = true.
Proof.
  unfold PyStr.of_Z, NilZero.string_of_int, NilZero.string_of_uint.
  destruct (Z.to_int n) as [d|d]; destruct d;
    try reflexivity; cbn [all_chars]; try apply numeric_uint;
    apply (numeric_uint (_ d)).
Qed.

Lemma numeric_zeros (n : nat) : all_chars numeric_char (PyFloat.zeros n) = true.
Proof. induction n; simpl; auto. Qed.

Lemma numeric_layout (digits : string) (decpt : Z) :
  all_chars numeric_char digits = true ->
  all_chars numeric_char (PyFloat.layout digits decpt) = true.
Proof.
  intros H. unfold PyFloat.layout.
  repeat match goal with
    | |- context [if ?b then _ else _] => destruct b
    end;
    rewrite ?all_chars_append, ?numeric_zeros, ?numeric_of_Z,
      ?all_chars_substring, ?H by assumption;
    reflexivity.
Qed.

Lemma numeric_repr (x : PyFloat.float) :
  all_chars numeric_char (PyFloat.repr x) = true.
Proof.
  destruct x as [s|s| |s m e]; try (destruct s; reflexivity); [reflexivity|].
  unfold PyFloat.repr.
  destruct (PyFloat.shortest _ _ _ _ _ _) as [d decpt].
  rewrite all_chars_append, numeric_layout.
  - now destruct s.
  - apply all_chars_strip_trailing_zeros, numeric_of_Z.
Qed.

End NumericText.

(** ** The [-vf] argument *)

Section VfArgument.

Local Open Scope list_scope.

(** *** Double quotes in the filter description *)










(** *** The output path is not an option name *)




(** *** Counting [-vf] *)




End VfArgument.




(** ** More about [escape] *)

Section EscapeMore.

Lemma escape_char_head (a : ascii) :
  exists c r, escape_char a = String c r
              /\ c <> PyStr.colon /\ c <> PyStr.dquote.
Proof.
  unfold escape_char.
  destruct (Ascii.eqb_spec a PyStr.colon) as [->|Hc];
    [eexists _, _; split; [reflexivity | split; discriminate]|].
  destruct (Ascii.eqb_spec a PyStr.dquote) as [->|Hq];
    [eexists _, _; split; [reflexivity | split; discriminate]|].
  destruct (Ascii.eqb_spec a PyStr.backslash) as [->|Hb];
    [eexists _, _; split; [reflexivity | split; discriminate]|].
  eexists _, _; split; [reflexivity | split; assumption].
Qed.

(** Escaped text never begins with a colon or a double quote. *)
Lemma escape_head (s : string) (c : ascii) (r : string) :
  escape s = String c r -> c <> PyStr.colon /\ c <> PyStr.dquote.
Proof.
  destruct s as [|a s]; [discriminate|].
  rewrite escape_cons.
  destruct (escape_char_head a) as (c' & r' & -> & H).
  simpl. intros E. injection E as <- _. exact H.
Qed.

Lemma count_char_append (c : ascii) (s t : string) :
  count_char c (s ++ t) = (count_char c s + count_char c t)%nat.
Proof. induction s as [|a s IH]; simpl; [reflexivity | rewrite IH; lia]. Qed.

Lemma count_char_zero (c : ascii) (s : string) :
  count_char c s = O <-> PyStr.contains c s = false.
Proof.
  induction s as [|a s IH]; simpl; [tauto|].
  destruct (Ascii.eqb a c); simpl; [split; [lia | discriminate] | exact IH].
Qed.

End EscapeMore.

(** X1. [escape] is injective: two different texts never get the same
    escaped form. *)
Theorem escape_injective (s t : string) : escape s = escape t -> s = t.
Proof.
  revert t. induction s as [|a s IH]; intros [|b t] H.
  - reflexivity.
  - rewrite escape_cons in H.
    destruct (escape_char_head b) as (c & r & E & _). rewrite E in H.
    discriminate H.
  - rewrite escape_cons in H.
    destruct (escape_char_head a) as (c & r & E & _). rewrite E in H.
    discriminate H.
  - rewrite !escape_cons in H. unfold escape_char in H.
    destruct (Ascii.eqb_spec a PyStr.colon) as [->|Ha1];
      [|destruct (Ascii.eqb_spec a PyStr.dquote) as [->|Ha2];
        [|destruct (Ascii.eqb_spec a PyStr.backslash) as [->|Ha3]]];
      (destruct (Ascii.eqb_spec b PyStr.colon) as [->|Hb1];
       [|destruct (Ascii.eqb_spec b PyStr.dquote) as [->|Hb2];
         [|destruct (Ascii.eqb_spec b PyStr.backslash) as [->|Hb3]]]);
      simpl in H; inversion H; subst;
      try congruence;
      try (f_equal; now apply IH);
      match goal with
      | E : String _ _ = escape _ |- _ =>
          symmetry in E; apply escape_head in E; destruct E as [E1 E2];
          exfalso; first [now apply E1 | now apply E2]
      | E : escape _ = String _ _ |- _ =>
          apply escape_head in E; destruct E as [E1 E2];
          exfalso; first [now apply E1 | now apply E2]
      end.
Qed.

Lemma escape_injective_witness :
  escape "C:/a.ttf" = escape "C:/a.ttf" /\ "C:/a.ttf" = "C:/a.ttf".
Proof.
  split; [reflexivity | apply (escape_injective "C:/a.ttf" "C:/a.ttf")].
  reflexivity.
Defined.

Lemma length_escape (s : string) :
  String.length (escape s)
  = (String.length s + 2 * count_char PyStr.colon s
     + 2 * count_char PyStr.dquote s + count_char PyStr.backslash s)%nat.
Proof.
  induction s as [|a s IH]; [reflexivity|].
  rewrite escape_cons, length_append, IH. unfold escape_char.
  cbn [count_char String.length].
  destruct (Ascii.eqb_spec a PyStr.colon) as [->|Hc]; [simpl; lia|].
  destruct (Ascii.eqb_spec a PyStr.dquote) as [->|Hq]; [simpl; lia|].
  destruct (Ascii.eqb_spec a PyStr.backslash) as [->|Hb]; simpl; lia.
Qed.

(** X2. The length of the escaped text: each colon and each double quote
    adds two characters, each backslash one; the escaped text is never
    shorter than the text. *)
Theorem escape_length (s : string) :
  String.length (escape s)
  = (String.length s + 2 * count_char PyStr.colon s
     + 2 * count_char PyStr.dquote s + count_char PyStr.backslash s)%nat
  /\ (String.length s <= String.length (escape s))%nat.
Proof. rewrite length_escape. split; [reflexivity | lia]. Qed.

(** X3. [escape] leaves a text unchanged exactly when it holds no colon, no
    double quote and no backslash. *)
Theorem escape_identity_iff (s : string) :
  escape s = s
  <-> PyStr.contains PyStr.colon s = false
      /\ PyStr.contains PyStr.dquote s = false
      /\ PyStr.contains PyStr.backslash s = false.
Proof.
  split.
  - intros E. apply (f_equal String.length) in E.
    rewrite length_escape in E.
    rewrite <- !count_char_zero. lia.
  - intros (Hc & Hq & Hb). unfold escape.
    now rewrite (replace_char_absent PyStr.colon),
      (replace_char_absent PyStr.dquote), (replace_char_absent PyStr.backslash).
Qed.

(** X4. Escaping works character by character: the escaped form of a
    concatenation is the concatenation of the escaped forms. *)
Theorem escape_concat (s t : string) : escape (s ++ t) = escape s ++ escape t.
Proof.
  induction s as [|a s IH]; [reflexivity|].
  change (String a s ++ t) with (String a (s ++ t)).
  now rewrite !escape_cons, IH, append_assoc.
Qed.

(** ** [file_name] *)

Section FileName.

Lemma last_segment_free (c : ascii) (s : string) :
  PyStr.contains c (PyStr.last_segment c s) = false.
Proof.
  induction s as [|a s IH]; [reflexivity|]. cbn [PyStr.last_segment].
  destruct (PyStr.contains c s) eqn:E; [exact IH|].
  destruct (Ascii.eqb a c) eqn:A; [exact E|].
  simpl. now rewrite A, E.
Qed.

Lemma last_segment_suffix (c : ascii) (s : string) :
  exists pre, s = pre ++ PyStr.last_segment c s.
Proof.
  induction s as [|a s (pre & IH)]; [now exists EmptyString|].
  cbn [PyStr.last_segment].
  destruct (PyStr.contains c s).
  - exists (String a pre). simpl. now rewrite <- IH.
  - destruct (Ascii.eqb a c).
    + now exists (String a EmptyString).
    + now exists EmptyString.
Qed.

End FileName.

(** X5. [file_name] returns the last component of a path: what follows the
    last slash, and the whole text when there is no slash. *)
Theorem file_name_last_component (dir name : string) :
  PyStr.contains "/" name = false ->
  file_name (dir ++ "/" ++ name) = name /\ file_name name = name.
Proof.
  intros H. unfold file_name. split.
  - induction dir as [|a dir IH]; cbn [append PyStr.last_segment].
    + now rewrite H.
    + rewrite contains_append. cbn [PyStr.contains].
      rewrite Ascii.eqb_refl, orb_true_r. exact IH.
  - destruct name as [|a name]; [reflexivity|].
    cbn [PyStr.last_segment]. simpl in H.
    apply orb_false_iff in H as [Ha Hn]. now rewrite Hn, Ha.
Qed.

(** The path of a video in a folder. *)
Lemma file_name_last_component_witness :
  file_name "C:/Videos/trip/clip.mp4" = "clip.mp4"
  /\ file_name "clip.mp4" = "clip.mp4".
Proof.
  apply (file_name_last_component "C:/Videos/trip" "clip.mp4"). reflexivity.
Defined.

(** X6. Whatever the path, the name [file_name] returns holds no slash and
    is the end of the path. *)
Theorem file_name_is_slash_free_end (file : string) :
  PyStr.contains "/" (file_name file) = false
  /\ exists dir, file = dir ++ file_name file.
Proof.
  split; [apply last_segment_free | apply last_segment_suffix].
Qed.

(** ** More about [process] *)

Section ProcessMore.

Lemma process_plans_trace (env : Env) (filename : string) (o : Options)
  (t : list event) (cmd : list string) :
  process env filename o = (t, Ok (Some cmd)) ->
  exists streams stream ctime p,
    probe env filename = Ok streams
    /\ first_video streams = Ok stream
    /\ creation_time_of env filename stream = (t, Ok ctime)
    /\ plans filename o stream ctime p
    /\ cmd = plan_arguments filename o p.
Proof.
  unfold process. intros H.
  destruct (probe env filename) as [streams|e] eqn:P.
  2: { destruct e; simpl in H; discriminate H. }
  destruct (first_video streams) as [stream|e] eqn:F;
    [|simpl in H; discriminate H].
  simpl in H.
  destruct (creation_time_of env filename stream) as [t1 [ctime|e]] eqn:C;
    [|simpl in H; discriminate H].
  simpl in H.
  destruct (command filename o stream ctime) as [c|e] eqn:K;
    [|simpl in H; discriminate H].
  simpl in H. rewrite !app_nil_r in H. injection H as <- <-.
  destruct (command_plans _ _ _ _ _ K) as (p & Hp & ->).
  exists streams, stream, ctime, p. repeat split; auto.
Qed.

Lemma replace_char_removes (c : ascii) (b s : string) :
  PyStr.contains c b = false ->
  PyStr.contains c (PyStr.replace_char c b s) = false.
Proof.
  intros Hb. induction s as [|a s IH]; [reflexivity|]. simpl.
  destruct (Ascii.eqb a c) eqn:E.
  - now rewrite contains_append, Hb, IH.
  - simpl. now rewrite E, IH.
Qed.

Lemma replace_char_length (c d : ascii) (s : string) :
  String.length (PyStr.replace_char c (String d EmptyString) s)
  = String.length s.
Proof.
  induction s as [|a s IH]; [reflexivity|]. simpl.
  destruct (Ascii.eqb a c); simpl; now rewrite IH.
Qed.

Lemma sub_ext_no_dot (repl : string -> string) (s : string) :
  PyStr.contains "." s = false -> Re.sub_ext repl s = s.
Proof.
  induction s as [|c s IH]; [reflexivity|]. simpl. intros H.
  apply orb_false_iff in H as [Hc Hs]. now rewrite Hc, IH.
Qed.

Lemma output_no_dot (filename sfx out : string) :
  PyStr.contains "." filename = false ->
  output filename sfx = Ok out -> out = filename.
Proof.
  intros H. unfold output, Re.sub.
  destruct (Re.parse_template _) as [ps|e]; [|discriminate].
  cbn [rbind]. intros E. injection E as <-. now apply sub_ext_no_dot.
Qed.

End ProcessMore.

(** X7. The stream [process] works on is the first one of type [video]:
    every stream before it carries another type. *)
Theorem first_video_is_first (streams : list Stream) (s : Stream) :
  first_video streams = Ok s ->
  exists before after,
    streams = (before ++ s :: after)%list
    /\ codec_type s = Some "video"
    /\ Forall (fun b => exists t, codec_type b = Some t /\ t <> "video")
         before.
Proof.
  induction streams as [|x streams IH]; [discriminate|].
  cbn [first_video]. destruct (codec_type x) as [t|] eqn:T; [|discriminate].
  cbn [getitem rbind]. destruct (String.eqb_spec t "video") as [->|N].
  - intros H. injection H as <-. now exists [], streams.
  - intros H. destruct (IH H) as (before & after & -> & V & B).
    exists (x :: before), after. repeat split; auto.
    constructor; [now exists t | exact B].
Qed.

(** With an audio track before the video track. *)
Lemma first_video_is_first_witness :
  exists before after,
    [Sample.audio_stream; Sample.video_stream]
    = (before ++ Sample.video_stream :: after)%list
    /\ codec_type Sample.video_stream = Some "video"
    /\ Forall (fun b => exists t, codec_type b = Some t /\ t <> "video")
         before.
Proof.
  apply (first_video_is_first [Sample.audio_stream; Sample.video_stream]
           Sample.video_stream).
  reflexivity.
Defined.

(** X8. Missing keys are not handled.  When a stream without a
    [codec_type] comes before any video stream, or the video stream has no
    [width] or no [height], [KeyError] leaves [process]: no command, and no
    line about the failure. *)
Theorem missing_key_raises_KeyError (env : Env) (filename : string)
  (o : Options) (streams : list Stream) :
  probe env filename = Ok streams ->
  (forall before s after,
      streams = (before ++ s :: after)%list ->
      Forall (fun b => exists t, codec_type b = Some t /\ t <> "video")
        before ->
      codec_type s = None ->
      process env filename o = ([], Raise KeyError))
  /\ (forall stream t ctime,
         first_video streams = Ok stream ->
         creation_time_of env filename stream = (t, Ok ctime) ->
         width stream = None \/ height stream = None ->
         process env filename o = (t, Raise KeyError)).
Proof.
  intros P. split.
  - intros before s after -> B N.
    assert (F : first_video (before ++ s :: after) = Raise KeyError).
    { clear P.
      induction B as [|x before (t & T & D) _ IH]; cbn [app first_video].
      - now rewrite N.
      - rewrite T. cbn [getitem rbind].
        apply String.eqb_neq in D. now rewrite D. }
    unfold process. now rewrite P, F.
  - intros stream t ctime F C K.
    unfold process. rewrite P, F. cbn [lift bind]. rewrite C.
    unfold command.
    destruct (width stream) as [w|]; cbn [getitem rbind lift bind].
    + destruct K as [K|K]; [discriminate|]. rewrite K.
      cbn [getitem rbind]. now rewrite app_nil_r.
    + now rewrite app_nil_r.
Qed.

(** A stream of unknown type first, and a video stream without
    dimensions. *)
Lemma missing_key_raises_KeyError_witness :
  process World.env "unknown.mkv" Sample.defaults = ([], Raise KeyError)
  /\ process World.env "nowidth.mp4" Sample.defaults
     = ([Print ("Warning: no creation time for nowidth.mp4, "
                ++ "using file creation time")],
        Raise KeyError).
Proof.
  split.
  - apply (proj1 (missing_key_raises_KeyError World.env "unknown.mkv"
                    Sample.defaults [World.unknown_stream; World.untagged]
                    eq_refl)
             [] World.unknown_stream [World.untagged]);
      [reflexivity | constructor | reflexivity].
  - apply (proj2 (missing_key_raises_KeyError World.env "nowidth.mp4"
                    Sample.defaults [World.no_dimensions] eq_refl)
             World.no_dimensions _
             (S754_finite false 7036874417766400 (-22)));
      [reflexivity | reflexivity | left; reflexivity].
Defined.

(** X9. [process] returns [None] exactly when the probe has failed with
    [CalledProcessError]; it has then printed one line naming the file. *)
Theorem process_returns_None_iff (env : Env) (filename : string)
  (o : Options) (t : list event) :
  process env filename o = (t, Ok None)
  <-> probe env filename = Raise CalledProcessError
      /\ t = [Print ("Error: invalid input file " ++ filename)].
Proof.
  split.
  - unfold process.
    destruct (probe env filename) as [streams|e] eqn:P.
    + destruct (first_video streams) as [stream|e]; cbn [lift bind];
        [|discriminate].
      destruct (creation_time_of env filename stream) as [t1 [ctime|e]];
        cbn [lift bind]; [|discriminate].
      destruct (command filename o stream ctime) as [c|e];
        cbn [lift bind ret]; discriminate.
    + destruct e; try discriminate. cbn. intros H. injection H as <-. auto.
  - intros [P ->]. now apply process_probe_error.
Qed.

(** X10. [process] itself starts nothing and prints at most one line: the
    error of a failed probe or the warning about a missing creation time. *)
Theorem process_only_prints (env : Env) (filename : string) (o : Options) :
  runs (fst (process env filename o)) = []
  /\ (List.length (fst (process env filename o)) <= 1)%nat.
Proof.
  unfold process.
  destruct (probe env filename) as [streams|e].
  - destruct (first_video streams) as [stream|e]; cbn [lift bind];
      [|simpl; auto].
    unfold creation_time_of.
    destruct (creation_time stream) as [tag|].
    + destruct (strptime_timestamp env tag) as [ctime|e]; cbn; [|auto].
      destruct (command filename o stream ctime); cbn; auto.
    + destruct (getctime env filename) as [ctime|e]; cbn; [|auto].
      destruct (command filename o stream ctime); cbn; auto.
  - destruct e; cbn; auto.
Qed.

(** X11. Where the time stamp comes from.  When [process] returns a
    command, the number in the [text] entry is the integer part of the
    stream's creation time if the stream carries the tag, and nothing is
    printed; without the tag it is the integer part of the file's creation
    time, and exactly one warning is printed. *)
Theorem timestamp_source (env : Env) (filename : string) (o : Options)
  (t : list event) (cmd : list string) :
  process env filename o = (t, Ok (Some cmd)) ->
  exists streams stream ct p,
    probe env filename = Ok streams
    /\ first_video streams = Ok stream
    /\ cmd = plan_arguments filename o p
    /\ PyFloat.to_int ct = Ok (p_timestamp p)
    /\ In ("text",
           VStr ("%{pts:localtime:" ++ PyStr.of_Z (p_timestamp p) ++ "}"))
         (plan_drawtext o p)
    /\ match creation_time stream with
       | Some tag => strptime_timestamp env tag = Ok ct /\ t = []
       | None =>
           getctime env filename = Ok ct
           /\ t = [Print ("Warning: no creation time for " ++ filename
                          ++ ", using file creation time")]
       end.
Proof.
  intros H.
  destruct (process_plans_trace _ _ _ _ _ H)
    as (streams & stream & ct & p & P & F & C & Hp & ->).
  exists streams, stream, ct, p.
  destruct Hp as (w & h & _ & _ & _ & _ & _ & _ & _ & _ & _ & T).
  repeat (split; [assumption || reflexivity|]).
  split; [unfold plan_drawtext, drawtext; simpl; tauto|].
  unfold creation_time_of in C.
  destruct (creation_time stream) as [tag|].
  - unfold lift in C. injection C as <- C. auto.
  - destruct (getctime env filename) as [c|e]; cbn in C;
      [|discriminate]. injection C as <- <-. auto.
Qed.

(** A video without the tag, in the second sample world. *)
Lemma timestamp_source_witness :
  exists cmd p,
    process World.env "notag.mp4" Sample.defaults
    = ([Print ("Warning: no creation time for notag.mp4, "
               ++ "using file creation time")], Ok (Some cmd))
    /\ cmd = plan_arguments "notag.mp4" Sample.defaults p
    /\ p_timestamp p = 1677721600.
Proof.
  destruct (process World.env "notag.mp4" Sample.defaults)
    as [t [[cmd|]|e]] eqn:E; try (vm_compute in E; discriminate E).
  destruct (timestamp_source World.env "notag.mp4" Sample.defaults t cmd E)
    as (streams & stream & ct & p & P & F & A & T & _ & S).
  vm_compute in P. injection P as <-.
  vm_compute in F. injection F as <-.
  cbn [creation_time World.untagged] in S. destruct S as [G ->].
  vm_compute in G. injection G as <-.
  vm_compute in T. injection T as T.
  exists cmd, p. repeat split; auto.
Defined.

(** X12. A file name without a dot gets no suffix: whenever [process]
    returns a command for it, the output path, last in the list, is the
    input path itself. *)
Theorem output_is_input_without_dot (env : Env) (filename : string)
  (o : Options) (t : list event) (cmd : list string) :
  process env filename o = (t, Ok (Some cmd)) ->
  PyStr.contains "." filename = false ->
  output filename (suffix o) = Ok filename
  /\ last cmd EmptyString = filename.
Proof.
  intros H D.
  destruct (process_plans _ _ _ _ _ H)
    as (streams & stream & ctime & p & _ & _ & _ & Hp & ->).
  destruct Hp as (w & h & _ & _ & _ & _ & _ & _ & O & _).
  pose proof (output_no_dot _ _ _ D O) as E. rewrite E in O.
  split; [exact O|].
  unfold plan_arguments, argument_list. rewrite E.
  rewrite !app_assoc. apply last_last.
Qed.

(** A file called [video], without extension. *)
Lemma output_is_input_without_dot_witness :
  exists cmd,
    process Sample.env "video" Sample.defaults = ([], Ok (Some cmd))
    /\ output "video" "_ts" = Ok "video"
    /\ last cmd EmptyString = "video".
Proof.
  destruct (process Sample.env "video" Sample.defaults)
    as [t [[cmd|]|e]] eqn:E; try (vm_compute in E; discriminate E).
  assert (T : t = []).
  { vm_compute in E. now injection E as <- _. }
  subst t. exists cmd. split; [reflexivity|].
  apply (output_is_input_without_dot Sample.env "video" Sample.defaults []
           cmd E).
  reflexivity.
Defined.

(** X13. The layout of the argument list.  It starts with [ffmpeg], ends
    with the output path that line 83 computes, and holds the input path
    directly after [-i], then the audio copy flags, the [-qp] value and the
    filter; with the GPU option the codec of the video stream names the
    hardware decoder before the input and the hardware encoder before the
    output, and the list has 18 arguments instead of 12. *)
Theorem argument_list_layout (env : Env) (filename : string) (o : Options)
  (t : list event) (cmd : list string) :
  process env filename o = (t, Ok (Some cmd)) ->
  exists streams stream codec q out v,
    probe env filename = Ok streams
    /\ first_video streams = Ok stream
    /\ codec_name stream = Some codec
    /\ qp (gpu o) (quality o) = Ok q
    /\ output filename (suffix o) = Ok out
    /\ cmd = (["ffmpeg"; "-y"; "-hide_banner"]
              ++ (if gpu o
                  then ["-hwaccel"; "cuda"; "-c:v"; (codec ++ "_cuvid")%string]
                  else [])
              ++ ["-i"; filename; "-c:a"; "copy"; "-qp"; str q; "-vf"; v]
              ++ (if gpu o then ["-c:v"; (codec ++ "_nvenc")%string] else [])
              ++ [out])%list
    /\ hd EmptyString cmd = "ffmpeg"
    /\ last cmd EmptyString = out
    /\ List.length cmd = (if gpu o then 18 else 12)%nat.
Proof.
  intros H.
  destruct (process_plans _ _ _ _ _ H)
    as (streams & stream & ctime & p & P & F & _ & Hp & ->).
  destruct Hp as (w & h & _ & _ & _ & _ & Hc & Hq & Ho & _).
  exists streams, stream, (p_codec p), (p_qp p), (p_output p),
    (vf (plan_drawtext o p)).
  unfold plan_arguments, argument_list, input_flags, output_flags.
  destruct (gpu o); repeat split; assumption.
Qed.

(** With the defaults: twelve arguments, [video_ts.mp4] last. *)
Lemma argument_list_layout_witness :
  hd EmptyString Sample.default_command = "ffmpeg"
  /\ last Sample.default_command EmptyString = "video_ts.mp4"
  /\ List.length Sample.default_command = 12%nat.
Proof.
  destruct (argument_list_layout Sample.env "video.mp4" Sample.defaults []
              Sample.default_command)
    as (streams & stream & codec & q & out & v
        & _ & _ & _ & _ & O & _ & A & L & B); [vm_compute; reflexivity|].
  vm_compute in O. injection O as <-.
  split; [exact A | split; [exact L | exact B]].
Defined.

(** X14. The font entry.  A font text with a dot is passed under the key
    [fontfile], any other under [font]; its backslashes are turned into
    slashes, so the value has the length of the text and holds no
    backslash. *)
Theorem font_entry (env : Env) (filename : string) (o : Options)
  (t : list event) (cmd : list string) :
  process env filename o = (t, Ok (Some cmd)) ->
  exists p v,
    cmd = plan_arguments filename o p
    /\ In ((if PyStr.contains "." (font o) then "fontfile" else "font"),
           VStr v) (plan_drawtext o p)
    /\ v = PyStr.replace_char PyStr.backslash "/" (font o)
    /\ String.length v = String.length (font o)
    /\ PyStr.contains PyStr.backslash v = false
    /\ (PyStr.contains PyStr.backslash (font o) = false -> v = font o).
Proof.
  intros H.
  destruct (process_plans _ _ _ _ _ H)
    as (streams & stream & ctime & p & _ & _ & _ & _ & ->).
  exists p, (PyStr.replace_char PyStr.backslash "/" (font o)).
  split; [reflexivity|].
  split; [unfold plan_drawtext, drawtext; simpl; tauto|].
  split; [reflexivity|].
  split; [apply replace_char_length|].
  split; [now apply replace_char_removes|].
  apply replace_char_absent.
Qed.

(** With the default font. *)
Lemma font_entry_witness :
  exists p,
    Sample.default_command = plan_arguments "video.mp4" Sample.defaults p
    /\ In ("font", VStr "Arial") (plan_drawtext Sample.defaults p).
Proof.
  destruct (font_entry Sample.env "video.mp4" Sample.defaults []
              Sample.default_command)
    as (p & v & A & I & -> & _); [vm_compute; reflexivity|].
  exists p. split; [exact A | exact I].
Defined.

(** ** More about the quantization parameter *)

Section QuantizationMore.

Lemma floor_qp_antitone (g : bool) (q1 q2 : Z) :
  q1 <= q2 -> floor_qp g q2 <= floor_qp g q1.
Proof.
  intros H. unfold floor_qp.
  apply Z.min_le_compat_r, Qfloor_resp_le.
  unfold Qdiv. apply Qmult_le_compat_r.
  - rewrite <- Zle_Qle. lia.
  - destruct g; vm_compute; discriminate.
Qed.

Lemma qp_text_checked_0_100 :
  forallb
    (fun q =>
       match qp true q, qp false q with
       | Ok vg, Ok vc =>
           String.eqb (str vg) (PyStr.of_Z (floor_qp true q))
           && String.eqb (str vc)
                (if q <=? 12 then "51"
                 else PyStr.of_Z (floor_qp false q) ++ ".0")
       | _, _ => false
       end)
    (map Z.of_nat (seq 0 101)) = true.
Proof. vm_compute. reflexivity. Qed.

End QuantizationMore.

(** X15. With the GPU option the quantization parameter is
    [min((101 - quality) // 2, 51)] for every integer quality: never above
    51, and negative as soon as the quality exceeds 101, since nothing
    bounds it from below. *)
Theorem qp_gpu_any_quality (q : Z) :
  exists n,
    qp true q = Ok (VInt n)
    /\ n = Z.min ((101 - q) / 2) 51
    /\ n <= 51
    /\ (0 <= n <-> q <= 101).
Proof.
  exists (Z.min ((101 - q) / 2) 51).
  split; [apply qp_gpu|]. split; [reflexivity|].
  pose proof (Z.div_mod (101 - q) 2 ltac:(lia)) as D.
  pose proof (Z.mod_pos_bound (101 - q) 2 ltac:(lia)) as B.
  split; [lia|]. split; lia.
Qed.

(** X16. A higher quality never gives a larger quantization parameter: on
    the range 0..100, for both values of the GPU option. *)
Theorem qp_antitone (g : bool) (q1 q2 : Z) :
  0 <= q1 -> q1 <= q2 -> q2 <= 100 ->
  exists v1 v2 n1 n2,
    qp g q1 = Ok v1 /\ qp g q2 = Ok v2
    /\ int_value v1 = Some n1 /\ int_value v2 = Some n2
    /\ n2 <= n1.
Proof.
  intros H0 H1 H2.
  assert (G : In g [true; false]) by (destruct g; simpl; auto).
  pose proof qp_checked_0_100 as C. rewrite forallb_forall in C.
  pose proof (C q1 (in_0_100 q1 ltac:(lia))) as C1.
  pose proof (C q2 (in_0_100 q2 ltac:(lia))) as C2.
  rewrite forallb_forall in C1, C2.
  specialize (C1 g G). specialize (C2 g G).
  destruct (qp g q1) as [v1|]; [|discriminate].
  destruct (qp g q2) as [v2|]; [|discriminate].
  destruct (int_value v1) as [n1|] eqn:E1; [|discriminate].
  destruct (int_value v2) as [n2|] eqn:E2; [|discriminate].
  apply andb_true_iff in C1 as [C1 _]. apply andb_true_iff in C1 as [C1 _].
  apply andb_true_iff in C2 as [C2 _]. apply andb_true_iff in C2 as [C2 _].
  apply Z.eqb_eq in C1, C2. subst n1 n2.
  exists v1, v2, (floor_qp g q1), (floor_qp g q2).
  repeat split; auto. now apply floor_qp_antitone.
Qed.

(** Quality 72 against quality 90, without the GPU. *)
Lemma qp_antitone_witness :
  exists v1 v2 n1 n2,
    qp false 72 = Ok v1 /\ qp false 90 = Ok v2
    /\ int_value v1 = Some n1 /\ int_value v2 = Some n2
    /\ n2 <= n1.
Proof. apply (qp_antitone false 72 90); lia. Defined.

(** X17. How the [-qp] argument is written, for a quality from 0 to 100.
    With the GPU option it is the integer; without it the value is a float
    and is written with a fraction ([17.0]), except for a quality up to 12,
    where the cap gives the integer text [51]. *)
Theorem qp_text (q : Z) :
  0 <= q <= 100 ->
  exists vg vc,
    qp true q = Ok vg /\ qp false q = Ok vc
    /\ str vg = PyStr.of_Z (floor_qp true q)
    /\ str vc = (if q <=? 12 then "51"
                 else PyStr.of_Z (floor_qp false q) ++ ".0").
Proof.
  intros H. pose proof qp_text_checked_0_100 as C.
  rewrite forallb_forall in C. specialize (C q (in_0_100 q H)).
  destruct (qp true q) as [vg|]; [|discriminate].
  destruct (qp false q) as [vc|]; [|discriminate].
  apply andb_true_iff in C as [C1 C2].
  apply String.eqb_eq in C1, C2.
  exists vg, vc. repeat split; assumption.
Qed.

(** At the default quality. *)
Lemma qp_text_witness :
  exists vg vc,
    qp true 72 = Ok vg /\ qp false 72 = Ok vc
    /\ str vg = "14" /\ str vc = "17.0".
Proof.
  destruct (qp_text 72) as (vg & vc & G & C & SG & SC); [lia|].
  exists vg, vc. repeat split; assumption.
Defined.

(** ** More about the batch *)

Section BatchMore.

Lemma runs_app (t u : list event) : runs (t ++ u) = (runs t ++ runs u)%list.
Proof.
  induction t as [|[line|cmd] t IH]; simpl; [reflexivity|exact IH|].
  now rewrite IH.
Qed.

Lemma process_runs_nothing (env : Env) (filename : string) (o : Options) :
  runs (fst (process env filename o)) = [].
Proof.
  unfold process.
  destruct (probe env filename) as [streams|e].
  - destruct (first_video streams) as [stream|e]; cbn [lift bind];
      [|reflexivity].
    unfold creation_time_of.
    destruct (creation_time stream) as [tag|].
    + destruct (strptime_timestamp env tag) as [ctime|e]; cbn; [|auto].
      destruct (command filename o stream ctime); cbn; auto.
    + destruct (getctime env filename) as [ctime|e]; cbn; [|auto].
      destruct (command filename o stream ctime); cbn; auto.
  - destruct e; cbn; auto.
Qed.

(** One round of the loop, by the result of [process]. *)
Lemma cli_loop_cons (env : Env) (verbose : bool) (o : Options)
  (filename : string) (rest : list string) :
  cli_loop env verbose o (filename :: rest)
  = match process env filename o with
    | (t, Ok (Some (a :: args))) =>
        match run_cli env verbose filename (a :: args) with
        | (u, Ok _) =>
            ((t ++ u ++ fst (cli_loop env verbose o rest))%list,
             snd (cli_loop env verbose o rest))
        | (u, Raise e) => ((t ++ u)%list, Raise e)
        end
    | (t, Ok _) =>
        ((t ++ fst (cli_loop env verbose o rest))%list,
         snd (cli_loop env verbose o rest))
    | (t, Raise e) => (t, Raise e)
    end.
Proof.
  cbn [cli_loop]. unfold bind at 1.
  destruct (process env filename o) as [t [[[|a args]|]|e]]; try reflexivity.
  - cbn [ret bind]. now destruct (cli_loop env verbose o rest).
  - unfold bind.
    destruct (run_cli env verbose filename (a :: args)) as [u [[]|e]].
    + destruct (cli_loop env verbose o rest). reflexivity.
    + reflexivity.
  - cbn [ret bind]. now destruct (cli_loop env verbose o rest).
Qed.

(** A command is started, or an exception leaves before anything runs. *)
Lemma spawn_cases (env : Env) (cmd : list string) :
  spawn env cmd = ([Run cmd], Ok tt)
  \/ exists e, spawn env cmd = ([], Raise e).
Proof.
  unfold spawn.
  destruct (existsb has_nul cmd); [right; eexists; reflexivity|].
  destruct (spawn_error env cmd); [right; eexists; reflexivity | now left].
Qed.

Lemma run_cli_runs (env : Env) (verbose : bool) (filename : string)
  (cmd : list string) :
  match run_cli env verbose filename cmd with
  | (u, Ok _) => runs u = [cmd]
  | (u, Raise _) => runs u = [cmd] \/ runs u = []
  end.
Proof.
  unfold run_cli.
  destruct (spawn_cases env cmd) as [S|(e & S)]; rewrite S;
    destruct verbose; cbn; auto.
  destruct (encode_ok env cmd); cbn; auto.
Qed.

(** In verbose mode a command that starts is all it takes. *)
Lemma run_cli_verbose (env : Env) (filename : string) (cmd : list string) :
  snd (spawn env cmd) = Ok tt ->
  run_cli env true filename cmd
  = ([Print ("Processing " ++ filename); Run cmd], Ok tt).
Proof.
  intros H. unfold run_cli.
  destruct (spawn_cases env cmd) as [S|(e & S)]; rewrite S in *;
    [reflexivity | discriminate].
Qed.

End BatchMore.

(** X18. Without the encoder binaries [handle_cli] does nothing with the
    files: it prints the error and one hint on installing, then exits with
    status 1, whatever the files and options. *)
Theorem handle_cli_without_ffmpeg (env : Env) (input_files : list string)
  (verbose : bool) (o : Options) :
  ffmpeg_found env = false ->
  exists hint,
    handle_cli env input_files verbose o
    = ([Print "Error: ffmpeg not found"; Print hint], Raise (SystemExit 1)).
Proof.
  intros H. unfold handle_cli, ensure_ffmpeg. rewrite H.
  eexists. reflexivity.
Qed.

(** On Windows. *)
Lemma handle_cli_without_ffmpeg_witness :
  exists hint,
    handle_cli World.no_ffmpeg ["notag.mp4"] false Sample.defaults
    = ([Print "Error: ffmpeg not found"; Print hint], Raise (SystemExit 1)).
Proof.
  apply (handle_cli_without_ffmpeg World.no_ffmpeg ["notag.mp4"] false
           Sample.defaults).
  reflexivity.
Defined.

(** X19. The batch is sequential and runs nothing of its own making: the
    commands it starts are, in order, the commands [process] returns for
    the input files, up to the point where it stops; when it ends without
    an exception it has started all of them. *)
Theorem cli_loop_runs_planned (env : Env) (verbose : bool) (o : Options)
  (input_files : list string) :
  exists more,
    planned env o input_files
    = (runs (fst (cli_loop env verbose o input_files)) ++ more)%list
    /\ (snd (cli_loop env verbose o input_files) = Ok tt -> more = []).
Proof.
  induction input_files as [|f rest (more & IH & Hok)].
  - exists []. split; [reflexivity | auto].
  - rewrite cli_loop_cons. unfold planned in *. cbn [flat_map].
    pose proof (process_runs_nothing env f o) as R.
    destruct (process env f o) as [t [[[|a args]|]|e]]; cbn [fst snd] in *.
    + exists more. rewrite runs_app, R. split; [exact IH | exact Hok].
    + pose proof (run_cli_runs env verbose f (a :: args)) as U.
      destruct (run_cli env verbose f (a :: args)) as [u [[]|e]];
        cbn [fst snd] in *.
      * exists more. rewrite !runs_app, R, U. cbn [app].
        split; [now rewrite IH | exact Hok].
      * destruct U as [U|U]; eexists; rewrite runs_app, R, U; cbn [app];
          (split; [reflexivity | discriminate]).
    + exists more. rewrite runs_app, R. split; [exact IH | exact Hok].
    + eexists. rewrite R. split; [reflexivity | discriminate].
Qed.

(** X20. In verbose mode the exit status of the encoder is not looked at:
    if [process] raises for none of the files and every command it returns
    can be started, the batch ends normally and has started the command of
    every file that has one, whether the encoder succeeds on it or not. *)
Theorem verbose_batch_completes (env : Env) (o : Options)
  (input_files : list string) :
  Forall (fun f => exists r, snd (process env f o) = Ok r) input_files ->
  Forall (fun cmd => snd (spawn env cmd) = Ok tt)
    (planned env o input_files) ->
  snd (cli_loop env true o input_files) = Ok tt
  /\ runs (fst (cli_loop env true o input_files))
     = planned env o input_files.
Proof.
  induction 1 as [|f rest (r & Hr) _ IH]; [split; reflexivity|].
  unfold planned in *. cbn [flat_map]. intros S.
  apply Forall_app in S as [S1 S2]. destruct (IH S2) as [IH1 IH2].
  rewrite cli_loop_cons.
  pose proof (process_runs_nothing env f o) as R.
  destruct (process env f o) as [t [[[|a args]|]|e]]; cbn [fst snd] in *;
    try discriminate.
  - rewrite runs_app, R. auto.
  - rewrite (run_cli_verbose env f (a :: args))
      by now apply Forall_inv in S1.
    cbn [fst snd]. rewrite !runs_app, R. cbn.
    split; [exact IH1 | now rewrite IH2].
  - rewrite runs_app, R. auto.
Qed.

(** A batch with an unreadable file and a file the encoder fails on. *)
Lemma verbose_batch_completes_witness :
  snd (cli_loop World.env true Sample.defaults
         ["broken.mp4"; "fail.mp4"; "notag.mp4"]) = Ok tt
  /\ runs (fst (cli_loop World.env true Sample.defaults
                  ["broken.mp4"; "fail.mp4"; "notag.mp4"]))
     = planned World.env Sample.defaults
         ["broken.mp4"; "fail.mp4"; "notag.mp4"].
Proof.
  apply (verbose_batch_completes World.env Sample.defaults
           ["broken.mp4"; "fail.mp4"; "notag.mp4"]).
  - repeat constructor; eexists; vm_compute; reflexivity.
  - vm_compute. repeat constructor.
Defined.

(** A command that cannot be started ends the batch in verbose mode too:
    the suffix [\0] puts a NUL character into the output path, and the
    encoder is refused on [toolong.mp4]. *)
Example verbose_batch_stops_when_not_started :
  cli_loop World.env true (with_suffix Sample.defaults "\0")
    ["notag.mp4"; "other.mp4"]
  = ([Print "Warning: no creation time for notag.mp4, using file creation time";
      Print "Processing notag.mp4"], Raise ValueError)
  /\ snd (cli_loop World.env true Sample.defaults
            ["toolong.mp4"; "notag.mp4"]) = Raise OSError.
Proof. split; vm_compute; reflexivity. Qed.

(** X21. Without [verbose] a failing encoder ends the batch: the
    [RuntimeError] of the progress wrapper is not caught, and the files
    after the failing one are not looked at.  (A command that cannot even
    be started ends the batch as well, with the exception of the start.) *)
Theorem progress_batch_stops_on_failure (env : Env) (o : Options)
  (filename : string) (rest : list string) (t : list event)
  (a : string) (args : list string) :
  process env filename o = (t, Ok (Some (a :: args))) ->
  encode_ok env (a :: args) = false ->
  cli_loop env false o (filename :: rest)
  = match spawn env (a :: args) with
    | (_, Ok _) => ((t ++ [Run (a :: args)])%list, Raise RuntimeError)
    | (_, Raise e) => (t, Raise e)
    end.
Proof.
  intros P E. rewrite cli_loop_cons, P. unfold run_cli.
  destruct (spawn_cases env (a :: args)) as [S|(e & S)]; rewrite S.
  - cbn. now rewrite E.
  - cbn. now rewrite app_nil_r.
Qed.

(** The encoder fails on [fail.mp4]; [notag.mp4] is not reached. *)
Lemma progress_batch_stops_on_failure_witness :
  exists t cmd,
    cli_loop World.env false Sample.defaults ["fail.mp4"; "notag.mp4"]
    = ((t ++ [Run cmd])%list, Raise RuntimeError).
Proof.
  destruct (process World.env "fail.mp4" Sample.defaults)
    as [t [[[|a args]|]|e]] eqn:E; try (vm_compute in E; discriminate E).
  exists t, (a :: args).
  rewrite (progress_batch_stops_on_failure World.env Sample.defaults
             "fail.mp4" ["notag.mp4"] t a args E).
  - vm_compute in E. injection E as _ <- <-. vm_compute. reflexivity.
  - vm_compute in E. injection E as _ <- <-. vm_compute. reflexivity.
Defined.

(** ** More about the GUI *)

Section FileSelection.

Variable env : Env.

(** When every probe returns or fails with [CalledProcessError], the loop
    of lines 221-224 sorts the files by the outcome of their probe. *)
Lemma split_files_answers (files : list string) :
  forallb (probe_answers env) files = true ->
  split_files env files
  = Ok (filter (probe_ok env) files,
        filter (fun f => negb (probe_ok env f)) files).
Proof.
  induction files as [|f files IH]; [reflexivity|].
  cbn [forallb]. intros H. apply andb_true_iff in H as [Hf Hs].
  cbn [split_files filter]. rewrite (IH Hs).
  unfold probable, probe_answers, probe_ok in *.
  destruct (probe env f) as [streams|[]]; try discriminate; reflexivity.
Qed.

(** Any other exception of a probe leaves the loop. *)
Lemma split_files_raises (files : list string) :
  forallb (probe_answers env) files = false ->
  exists e, split_files env files = Raise e.
Proof.
  induction files as [|f files IH]; [discriminate|].
  cbn [forallb split_files]. intros H.
  unfold probable. unfold probe_answers at 1 in H.
  destruct (probe env f) as [streams|e].
  - cbn [rbind]. destruct (IH H) as (e & ->). cbn [rbind]. eauto.
  - destruct e; cbn [rbind]; eauto.
    destruct (IH H) as (e & ->). cbn [rbind]. eauto.
Qed.

Lemma split_files_ok (files videos errors : list string) :
  split_files env files = Ok (videos, errors) ->
  forallb (probe_answers env) files = true
  /\ videos = filter (probe_ok env) files
  /\ errors = filter (fun f => negb (probe_ok env f)) files.
Proof.
  intros H.
  destruct (forallb (probe_answers env) files) eqn:A.
  - rewrite (split_files_answers _ A) in H. injection H as <- <-. auto.
  - destruct (split_files_raises _ A) as (e & E). congruence.
Qed.

End FileSelection.



(** X23. The warning about invalid files names the wrong ones: when the
    loop over the selection ends and the probe of a selected file has
    failed with [CalledProcessError], the text under [Invalid files:] is
    made of the names of the files whose probe returned (line 227 joins
    [videos]); the failed file is not among them. *)
Theorem invalid_files_warning_lists_valid_files (env : Env) (g : Gui)
  (f : string) :
  re_match_prefix (suffix_textbox g) = true ->
  forallb (probe_answers env) (selected_files g) = true ->
  In f (selected_files g) ->
  probe env f = Raise CalledProcessError ->
  In (WarnBox "Warning"
        ("Invalid files:" ++ nl
         ++ PyStr.join nl
              (map file_name (filter (probe_ok env) (selected_files g)))))
    (start env g)
  /\ ~ In f (filter (probe_ok env) (selected_files g)).
Proof.
  intros S A I P.
  assert (Pf : probe_ok env f = false) by (unfold probe_ok; now rewrite P).
  split.
  2: { intros K. apply filter_In in K as [_ K]. congruence. }
  unfold start.
  destruct (suffix_textbox g) as [|c rest]; [discriminate|].
  assert (E : String.eqb (String c rest) EmptyString = false) by reflexivity.
  rewrite E, S. cbn [negb].
  destruct (selected_files g) as [|x xs] eqn:F; [contradiction|].
  rewrite (split_files_answers env _ A).
  assert (N : filter (fun y => negb (probe_ok env y)) (x :: xs) <> []).
  { intros Z.
    assert (K : In f (filter (fun y => negb (probe_ok env y)) (x :: xs))).
    { apply filter_In. split; [exact I | now rewrite Pf]. }
    rewrite Z in K. contradiction. }
  right. apply in_or_app. left.
  destruct (filter (fun y => negb (probe_ok env y)) (x :: xs));
    [contradiction | now left].
Qed.

(** [broken.mp4] fails the probe; the warning shows [video.mp4]. *)
Lemma invalid_files_warning_lists_valid_files_witness :
  In (WarnBox "Warning" ("Invalid files:" ++ nl ++ "video.mp4"))
    (start Sample.env
       {| suffix_textbox := "_ts";
          selected_files := ["broken.mp4"; "video.mp4"];
          confirmed := false; running := false |})
  /\ ~ In "broken.mp4" ["video.mp4"].
Proof.
  apply (invalid_files_warning_lists_valid_files Sample.env
           {| suffix_textbox := "_ts";
              selected_files := ["broken.mp4"; "video.mp4"];
              confirmed := false; running := false |}
           "broken.mp4");
    [reflexivity | reflexivity | left; reflexivity | reflexivity].
Defined.

(** X30. A probe that raises anything but [CalledProcessError] is not
    handled by [probable]: the exception leaves the callback right after
    the file dialog, whatever else was selected; no warning, no
    confirmation, no thread. *)
Theorem start_left_by_probe_exception (env : Env) (g : Gui) (f : string) :
  re_match_prefix (suffix_textbox g) = true ->
  In f (selected_files g) ->
  probe_answers env f = false ->
  exists e, start env g = [AskFiles; Raised e].
Proof.
  intros S I P. unfold start.
  destruct (suffix_textbox g) as [|c rest]; [discriminate|].
  assert (E : String.eqb (String c rest) EmptyString = false) by reflexivity.
  rewrite E, S. cbn [negb].
  destruct (selected_files g) as [|x xs] eqn:F; [contradiction|].
  assert (A : forallb (probe_answers env) (x :: xs) = false).
  { destruct (forallb (probe_answers env) (x :: xs)) eqn:A; [|reflexivity].
    rewrite forallb_forall in A. rewrite (A f I) in P. discriminate. }
  destruct (split_files_raises env _ A) as (e & ->). eauto.
Qed.

(** The probe of [denied.mp4] cannot be started. *)
Lemma start_left_by_probe_exception_witness :
  exists e,
    start World.env
      {| suffix_textbox := "_ts";
         selected_files := ["notag.mp4"; "denied.mp4"; "broken.mp4"];
         confirmed := true; running := false |}
    = [AskFiles; Raised e].
Proof.
  apply (start_left_by_probe_exception World.env
           {| suffix_textbox := "_ts";
              selected_files := ["notag.mp4"; "denied.mp4"; "broken.mp4"];
              confirmed := true; running := false |}
           "denied.mp4");
    [reflexivity | right; left; reflexivity | reflexivity].
Defined.

(** X24. The preview beside the suffix box shows what [process] will do to
    [video.mp4], as long as the suffix holds no backslash. *)
Theorem update_example_agrees_with_output (sfx : string) :
  PyStr.contains PyStr.backslash sfx = false ->
  exists out,
    output "video.mp4" sfx = Ok out
    /\ update_example sfx = "video.mp4 => " ++ out.
Proof.
  intros H. exists ("video" ++ sfx ++ ".mp4"). split; [|reflexivity].
  rewrite (output_plain _ _ H).
  change "video.mp4" with ("video" ++ String "." "mp4").
  rewrite sub_ext_at_extension; [reflexivity | discriminate | reflexivity].
Qed.

(** With the suffix the box starts with. *)
Lemma update_example_agrees_with_output_witness :
  exists out,
    output "video.mp4" "_ts" = Ok out
    /\ update_example "_ts" = "video.mp4 => " ++ out.
Proof. apply (update_example_agrees_with_output "_ts"). reflexivity. Defined.

(** ** [td_str] *)

Section Durations.

Lemma pad2_checked :
  forallb (fun n => Nat.eqb (String.length (pad2 (Z.of_nat n))) 2)
    (seq 0 100) = true.
Proof. vm_compute. reflexivity. Qed.

Lemma pad2_length (n : Z) : 0 <= n < 100 -> String.length (pad2 n) = 2%nat.
Proof.
  intros H. pose proof pad2_checked as C. rewrite forallb_forall in C.
  specialize (C (Z.to_nat n)). rewrite Z2Nat.id in C by lia.
  apply Nat.eqb_eq, C, in_seq. lia.
Qed.

End Durations.

(** X25. [td_str] writes a duration below one day as [HH:MM:SS]: eight
    characters, hours below 24, minutes and seconds below 60, and the three
    fields add up to the duration. *)
Theorem td_str_format (seconds : Z) :
  0 <= seconds < 86400 ->
  String.length (td_str seconds) = 8%nat
  /\ exists h m s,
      td_str seconds = pad2 h ++ ":" ++ pad2 m ++ ":" ++ pad2 s
      /\ 0 <= h < 24 /\ 0 <= m < 60 /\ 0 <= s < 60
      /\ 3600 * h + 60 * m + s = seconds.
Proof.
  intros H.
  pose proof (Z.div_mod seconds 60 ltac:(lia)) as D1.
  pose proof (Z.mod_pos_bound seconds 60 ltac:(lia)) as B1.
  pose proof (Z.div_mod (seconds / 60) 60 ltac:(lia)) as D2.
  pose proof (Z.mod_pos_bound (seconds / 60) 60 ltac:(lia)) as B2.
  assert (E : seconds / 3600 = seconds / 60 / 60)
    by (rewrite Z.div_div by lia; reflexivity).
  assert (Hh : 0 <= seconds / 3600 < 24) by lia.
  split.
  - unfold td_str. rewrite !length_append, !pad2_length by lia. reflexivity.
  - exists (seconds / 3600), (seconds / 60 mod 60), (seconds mod 60).
    split; [reflexivity|]. repeat split; lia.
Qed.

(** One hour, two minutes and five seconds. *)
Lemma td_str_format_witness :
  String.length (td_str 3725) = 8%nat /\ td_str 3725 = "01:02:05".
Proof.
  destruct (td_str_format 3725) as [L _]; [lia|].
  split; [exact L | reflexivity].
Defined.

(** ** [validate_float] *)

Section ValidateFloatFacts.

Variable float_of_str : string -> option PyFloat.float.
Variables min max : option PyFloat.float.

Lemma validate_float_prev (prev : value) (text : string) :
  fst (validate_float float_of_str min max (prev, text)) = prev
  \/ exists x,
      fst (validate_float float_of_str min max (prev, text)) = VFloat x
      /\ float_of_str text = Some x
      /\ within min max x = true.
Proof.
  unfold validate_float.
  destruct (float_of_str text) as [x|]; [|now left].
  destruct (within min max x) eqn:W; [|now left].
  right. now exists x.
Qed.

End ValidateFloatFacts.

(** What the handler of [validate_float] does to the text box: a text
    that is not a number is replaced by the remembered value; a text that
    is a number is left as it stands, also when the number is out of range
    (then the remembered value does not change either). *)
Lemma validate_float_text (float_of_str : string -> option PyFloat.float)
  (min max : option PyFloat.float) (prev : value) (text : string) :
  (float_of_str text = None ->
   validate_float float_of_str min max (prev, text) = (prev, str prev))
  /\ (forall x, float_of_str text = Some x ->
        snd (validate_float float_of_str min max (prev, text)) = text
        /\ (within min max x = false ->
            validate_float float_of_str min max (prev, text) = (prev, text))
        /\ (within min max x = true ->
            validate_float float_of_str min max (prev, text)
            = (VFloat x, text))).
Proof.
  unfold validate_float. split.
  - now intros ->.
  - intros x ->. destruct (within min max x); repeat split; congruence.
Qed.

(** The size box (bounds 0 and 100, remembered value 24): letters, and the
    number 500. *)
Lemma validate_float_text_witness :
  validate_float digits_float (Some (PyFloat.of_Z 0)) (Some (PyFloat.of_Z 100))
    (VInt 24, "abc") = (VInt 24, "24")
  /\ validate_float digits_float (Some (PyFloat.of_Z 0))
       (Some (PyFloat.of_Z 100)) (VInt 24, "500") = (VInt 24, "500").
Proof.
  split.
  - apply (proj1 (validate_float_text digits_float (Some (PyFloat.of_Z 0))
                    (Some (PyFloat.of_Z 100)) (VInt 24) "abc")).
    reflexivity.
  - apply (proj2 (validate_float_text digits_float (Some (PyFloat.of_Z 0))
                    (Some (PyFloat.of_Z 100)) (VInt 24) "500")
             (PyFloat.of_Z 500)); reflexivity.
Defined.

(** X26. Whatever is typed into the box, the remembered value is the
    initial one or a number that was typed and lies within the bounds. *)
Theorem validate_float_remembers_valid
  (float_of_str : string -> option PyFloat.float)
  (min max : option PyFloat.float) (initial : value) (edits : list string) :
  validate_edits float_of_str min max initial edits = initial
  \/ exists text x,
      In text edits
      /\ float_of_str text = Some x
      /\ within min max x = true
      /\ validate_edits float_of_str min max initial edits = VFloat x.
Proof.
  unfold validate_edits.
  induction edits as [|text edits IH] using rev_ind; [now left|].
  rewrite fold_left_app. cbn [fold_left].
  destruct (validate_float_prev float_of_str min max
              (fold_left
                 (fun p t => fst (validate_float float_of_str min max (p, t)))
                 edits initial) text) as [E|(x & E & F & W)].
  - rewrite E. destruct IH as [IH|(t & x & I & F & W & IH)]; [now left|].
    right. exists t, x. rewrite in_app_iff. auto.
  - right. exists text, x. rewrite in_app_iff. simpl. auto.
Qed.

(** The handler on the size box after three edits: letters, a number out
    of range, a number in range. *)
Lemma validate_float_remembers_valid_sample :
  validate_edits digits_float (Some (PyFloat.of_Z 0)) (Some (PyFloat.of_Z 100))
    (VInt 24) ["abc"; "500"; "30"] = VFloat (PyFloat.of_Z 30).
Proof. vm_compute. reflexivity. Qed.

(** ** When [process] succeeds, and what the numbers look like *)

Section NumbersUnescaped.

Lemma escape_plain (s : string) :
  PyStr.contains PyStr.colon s = false ->
  PyStr.contains PyStr.dquote s = false ->
  PyStr.contains PyStr.backslash s = false ->
  escape s = s.
Proof.
  intros Hc Hq Hb. unfold escape.
  now rewrite (replace_char_absent PyStr.colon),
    (replace_char_absent PyStr.dquote), (replace_char_absent PyStr.backslash).
Qed.

Lemma escape_numeric (s : string) :
  all_chars numeric_char s = true -> escape s = s.
Proof.
  intros H.
  apply escape_plain; apply (all_chars_absent numeric_char);
    (exact H || reflexivity).
Qed.

End NumbersUnescaped.

(** X27. [process] returns a command as soon as the probe finds a video
    stream with dimensions and codec name, the creation time is a finite
    number, the text size is not zero, the quality and the smaller
    dimension convert to floats, and the suffix holds no backslash; it
    prints nothing but the warning about a missing creation time. *)
Theorem process_returns_command (env : Env) (filename : string) (o : Options)
  (streams : list Stream) (stream : Stream) (t : list event)
  (ctime mn : PyFloat.float) (w h ts : Z) (codec : string) (q : value) :
  probe env filename = Ok streams ->
  first_video streams = Ok stream ->
  creation_time_of env filename stream = (t, Ok ctime) ->
  width stream = Some w ->
  height stream = Some h ->
  PyFloat.of_int (Z.min w h) = Ok mn ->
  PyFloat.is_zero (size o) = false ->
  codec_name stream = Some codec ->
  qp (gpu o) (quality o) = Ok q ->
  PyStr.contains PyStr.backslash (suffix o) = false ->
  PyFloat.to_int ctime = Ok ts ->
  exists cmd,
    process env filename o = (t, Ok (Some cmd))
    /\ hd EmptyString cmd = "ffmpeg"
    /\ In filename cmd
    /\ (List.length t <= 1)%nat.
Proof.
  intros P F C W H M Z K Q S T.
  destruct (process_succeeds env filename o streams stream t ctime mn w h ts
              codec q P F C W H M Z K Q S T) as (p & E & _).
  exists (plan_arguments filename o p). split; [exact E|].
  split; [reflexivity|]. split.
  - unfold plan_arguments, argument_list. rewrite !in_app_iff. simpl. tauto.
  - unfold creation_time_of in C.
    destruct (creation_time stream).
    + unfold lift in C. injection C as <- _. simpl. lia.
    + destruct (getctime env filename); cbn in C; injection C as <- _;
        simpl; lia.
Qed.

(** The sample video with the defaults. *)
Lemma process_returns_command_witness :
  exists cmd,
    process Sample.env "video.mp4" Sample.defaults = ([], Ok (Some cmd))
    /\ hd EmptyString cmd = "ffmpeg"
    /\ In "video.mp4" cmd
    /\ (List.length (@nil event) <= 1)%nat.
Proof.
  apply (process_returns_command Sample.env "video.mp4" Sample.defaults
           [Sample.audio_stream; Sample.video_stream] Sample.video_stream []
           (PyFloat.of_Z 1700000000) (PyFloat.of_Z 1080) 1920 1080 1700000000
           "h264" (VFloat (PyFloat.of_Z 17)));
    reflexivity.
Defined.

(** X28. Numbers reach the filter description as Python prints them: the
    escaping changes no character of a printed float or integer; of the
    time-stamp text only the two colons are escaped. *)
Theorem numbers_are_not_escaped (key : string) (x : PyFloat.float) (n : Z) :
  item (key, VFloat x) = escape key ++ "=" ++ PyFloat.repr x
  /\ item (key, VInt n) = escape key ++ "=" ++ PyStr.of_Z n
  /\ item ("text", VStr ("%{pts:localtime:" ++ PyStr.of_Z n ++ "}"))
     = "text=%{pts\\:localtime\\:" ++ PyStr.of_Z n ++ "}".
Proof.
  unfold item. cbn [fst snd str].
  rewrite (escape_numeric (PyFloat.repr x)) by apply numeric_repr.
  rewrite (escape_numeric (PyStr.of_Z n)) by apply numeric_of_Z.
  repeat split.
  rewrite !escape_append, (escape_numeric (PyStr.of_Z n))
    by apply numeric_of_Z.
  reflexivity.
Qed.
